(** * GrovQuick dashboard (app.py): metric derivation, funnel, grouping,
      scenario projection and the table-copy discipline

    The development embeds the computational parts of [app.py]:
    [load_data] (lines 41-57), the key metrics of the summary page
    (lines 133-140), the filters of the exploration page (lines 232-238)
    and its describe() (line 358), the funnel page (lines 370-415) and its
    funnel by segment (lines 454-462), the custom CAC recomputation and
    the customer counts of the aggregation by segment of the ROI page
    (lines 515-536), and the Simulated Impact page: the scenario
    projection (lines 1201-1246), the comparison of the scenarios
    (lines 1412-1428), the payback periods (line 1438) and the quarterly
    targets (lines 1454-1462).

    Numbers, in two readings.  In the first every numeric cell and every
    Python float is a [num]: an exact rational, or one of the three special
    values that a division by zero or a missing key produces; rounding of
    finite results to binary64 is not modelled there, and that reading is
    used for what rounding cannot change: which cells are NaN or infinite,
    counts, errors, orderings, columns left alone.  The second reading,
    [Machine], is the arithmetic of the machine: binary64 values with the
    correctly rounded operations of IEEE 754, 64-bit integers that wrap
    around, and text cells that can be missing.  Python [int]s (the
    results of [len]) are [Z]. *)

From Stdlib Require Import ZArith QArith Qround Qminmax Qabs Lia Lqa Bool.
From Stdlib Require Import PrimFloat SpecFloat FloatOps FloatAxioms.
From stdpp Require Import base option list gmap strings sorting.

Local Open Scope Q_scope.
Set Warnings "-inexact-float".

(** ** Numeric cells *)

Inductive num : Type :=
| Fin (q : Q)
| PInf
| NInf
| NaN.

(** Equality of cells up to the representation of the rational. *)
Definition num_eq (a b : num) : Prop :=
  match a, b with
  | Fin x, Fin y => x == y
  | PInf, PInf | NInf, NInf | NaN, NaN => True
  | _, _ => False
  end.

Infix "=n=" := num_eq (at level 70, no associativity).

Definition isna (a : num) : bool :=
  match a with NaN => true | _ => false end.

Definition notna (a : num) : bool := negb (isna a).

(** Sign of a rational: -1, 0 or 1. *)
Definition Qsgn (q : Q) : Z := Z.sgn (Qnum q).

Definition inf_of_sign (s : Z) : num :=
  match s with
  | Z0 => NaN
  | Zpos _ => PInf
  | Zneg _ => NInf
  end.

Definition num_sign (a : num) : Z :=
  match a with
  | Fin q => Qsgn q
  | PInf => 1%Z
  | NInf => (-1)%Z
  | NaN => 0%Z
  end.

Definition num_neg (a : num) : num :=
  match a with
  | Fin q => Fin (- q)
  | PInf => NInf
  | NInf => PInf
  | NaN => NaN
  end.

Definition num_add (a b : num) : num :=
  match a, b with
  | NaN, _ | _, NaN => NaN
  | Fin x, Fin y => Fin (x + y)
  | PInf, NInf | NInf, PInf => NaN
  | PInf, _ | _, PInf => PInf
  | NInf, _ | _, NInf => NInf
  end.

Definition num_sub (a b : num) : num :=
  match a, b with
  | NaN, _ | _, NaN => NaN
  | Fin x, Fin y => Fin (x - y)
  | PInf, PInf | NInf, NInf => NaN
  | PInf, _ | _, NInf => PInf
  | NInf, _ | _, PInf => NInf
  end.

Definition num_mul (a b : num) : num :=
  match a, b with
  | NaN, _ | _, NaN => NaN
  | Fin x, Fin y => Fin (x * y)
  | _, _ => inf_of_sign (num_sign a * num_sign b)
  end.

(** True division as numpy performs it on a column: no exception, a zero
    divisor gives an infinity of the sign of the dividend, and 0/0 is NaN. *)
Definition num_div (a b : num) : num :=
  match a, b with
  | NaN, _ | _, NaN => NaN
  | Fin x, Fin y =>
      if Qeq_bool y 0 then inf_of_sign (Qsgn x) else Fin (x / y)
  | Fin _, _ => Fin 0
  | _, Fin y => if Qeq_bool y 0 then a else inf_of_sign (num_sign a * Qsgn y)
  | _, _ => NaN
  end.

(** Comparisons: every comparison with NaN is false. *)
Definition num_le (a b : num) : bool :=
  match a, b with
  | NaN, _ | _, NaN => false
  | Fin x, Fin y => Qle_bool x y
  | NInf, _ | _, PInf => true
  | _, _ => false
  end.

Definition num_lt (a b : num) : bool :=
  match a, b with
  | NaN, _ | _, NaN => false
  | Fin x, Fin y => negb (Qle_bool y x)
  | PInf, _ | _, NInf => false
  | _, _ => true
  end.

Definition num_ge (a b : num) : bool := num_le b a.

(** Python's builtin [min(a, b)]: [b] when [b < a], else [a]. *)
Definition py_min (a b : num) : num := if num_lt b a then b else a.

Definition of_Z (z : Z) : num := Fin (inject_Z z).

(** ** The customer table *)

(** One line of the CSV file.  Text columns hold strings, numeric columns
    hold cells.  In this reading every text cell is present; a table with
    missing text cells is a [Machine.RawFrame]. *)
Record CustomerRecord : Type := mkRecord {
  CustomerID : string;
  City : string;
  Zone : string;
  CustomerSegment : string;
  AvgOrderValue : num;
  OrderFrequency : num;
  ReturnedOrders : num;
  SatisfactionScore : num
}.

(** One row of a data frame after [load_data]: the input columns and the
    computed ones.  [ROI_Ratio] is [None] in a frame that has no such
    column (it is added on the ROI page only). *)
Record Row : Type := mkRow {
  input : CustomerRecord;
  CLV : num;
  ReturnRate : num;
  CAC : num;
  ROI : num;
  ROI_Ratio : option num
}.

Abbreviation DataFrame := (list Row).

(** [len(df)], a Python int. *)
Definition len {A} (l : list A) : Z := Z.of_nat (length l).

(** ** load_data *)

(** [Series.map(dict)]: the value under the key, NaN for a key that the
    dict does not have. *)
Definition map_dict (d : gmap string Z) (k : string) : num :=
  match d !! k with
  | Some v => of_Z v
  | None => NaN
  end.

Definition cac_map : gmap string Z :=
  <["Premium" := 500%Z]> (<["Regular" := 300%Z]>
    (<["Budget" := 200%Z]> (<["Occasional" := 150%Z]> ∅))).

(** The four column assignments of [load_data]; pandas evaluates each
    column expression elementwise on the frame's own index, that is, row
    by row. *)
Definition add_computed_columns (d : gmap string Z) (r : CustomerRecord) : Row :=
  let clv := num_mul (AvgOrderValue r) (OrderFrequency r) in
  let return_rate := num_div (ReturnedOrders r) (OrderFrequency r) in
  let cac := map_dict d (CustomerSegment r) in
  let roi := num_sub clv cac in
  {| input := r; CLV := clv; ReturnRate := return_rate; CAC := cac;
     ROI := roi; ROI_Ratio := None |}.

Definition deriveMetrics (records : list CustomerRecord) (d : gmap string Z)
  : DataFrame :=
  map (add_computed_columns d) records.

(** [csv] is the parsed file, [None] when [read_csv] raises
    FileNotFoundError; [load_data] then returns [None]. *)
Definition load_data (csv : option (list CustomerRecord)) : option DataFrame :=
  match csv with
  | Some records => Some (deriveMetrics records cac_map)
  | None => None
  end.

(** ** Series.mean *)

Definition dropna (s : list num) : list num := filter (λ v, notna v = true) s.

Definition series_sum (s : list num) : num := foldr num_add (Fin 0) s.

(** [Series.mean()] with its default [skipna=True]: the sum of the cells
    that are not NaN over their number; NaN for no such cell. *)
Definition mean (s : list num) : num :=
  let kept := dropna s in
  num_div (series_sum kept) (of_Z (len kept)).

(** ** Funnel page *)

Definition between (lo hi : num) (v : num) : bool :=
  num_le lo v && num_le v hi.

Definition ge (bound : num) (v : num) : bool := num_ge v bound.

(** [df[mask]] for a mask computed from one column. *)
Definition select (p : Row → bool) (df : DataFrame) : DataFrame :=
  filter (λ r, p r = true) df.

Definition freq (r : Row) : num := OrderFrequency (input r).

Record Funnel : Type := mkFunnel {
  total_customers : Z;
  stage_1_order : Z;
  stage_2_3_orders : Z;
  stage_4plus_orders : Z
}.

Definition classifyFunnel (df : DataFrame) : Funnel :=
  {| total_customers := len df;
     stage_1_order := len (select (λ r, ge (of_Z 1) (freq r)) df);
     stage_2_3_orders := len (select (λ r, between (of_Z 2) (of_Z 3) (freq r)) df);
     stage_4plus_orders := len (select (λ r, ge (of_Z 4) (freq r)) df) |}.

(** Python exceptions the arithmetic of the page can raise. *)
Inductive exn : Type :=
| ZeroDivisionError
| KeyError (column : string).

Definition result (A : Type) : Type := exn + A.

Definition ret {A} (a : A) : result A := inr a.

Definition bind {A B} (m : result A) (k : A → result B) : result B :=
  match m with
  | inl e => inl e
  | inr a => k a
  end.

Notation "'let!' x ':=' m 'in' k" := (bind m (λ x, k))
  (at level 10, x name, m at level 100, k at level 200).

(** [a / b] on Python ints: a float, or ZeroDivisionError. *)
Definition int_truediv (a b : Z) : result Q :=
  if (b =? 0)%Z then inl ZeroDivisionError else ret (inject_Z a / inject_Z b).

(** [(n / d) * 100] *)
Definition percent (n d : Z) : result Q :=
  let! q := int_truediv n d in ret (q * 100).

(** Drop-off between an upper and a lower stage:
    [((upper - lower) / upper) * 100]. *)
Definition dropoff (upper lower : Z) : result Q :=
  percent (upper - lower) upper.

Record FunnelRates : Type := mkRates {
  conv_rate_1 : Q;
  conv_rate_2 : Q;
  conv_rate_3 : Q;
  dropoff_1_2 : Q;
  dropoff_2_3 : Q
}.

(** The rates in the order the page computes them. *)
Definition funnel_rates (f : Funnel) : result FunnelRates :=
  let! c1 := percent (stage_1_order f) (total_customers f) in
  let! c2 := percent (stage_2_3_orders f) (stage_1_order f) in
  let! c3 := percent (stage_4plus_orders f) (stage_2_3_orders f) in
  let! d12 := dropoff (stage_1_order f) (stage_2_3_orders f) in
  let! d23 := dropoff (stage_2_3_orders f) (stage_4plus_orders f) in
  ret {| conv_rate_1 := c1; conv_rate_2 := c2; conv_rate_3 := c3;
         dropoff_1_2 := d12; dropoff_2_3 := d23 |}.

(** ** ROI page: recomputation under a custom mapping *)

(** The three column assignments on [df_custom], each on the whole frame
    and in the order of the source: the second reads the CAC column the
    first has written. *)
Definition assign_CAC (d : gmap string Z) (df : DataFrame) : DataFrame :=
  map (λ r, {| input := input r; CLV := CLV r; ReturnRate := ReturnRate r;
               CAC := map_dict d (CustomerSegment (input r));
               ROI := ROI r; ROI_Ratio := ROI_Ratio r |}) df.

Definition assign_ROI (df : DataFrame) : DataFrame :=
  map (λ r, {| input := input r; CLV := CLV r; ReturnRate := ReturnRate r;
               CAC := CAC r;
               ROI := num_sub (CLV r) (CAC r); ROI_Ratio := ROI_Ratio r |}) df.

Definition assign_ROI_Ratio (df : DataFrame) : DataFrame :=
  map (λ r, {| input := input r; CLV := CLV r; ReturnRate := ReturnRate r;
               CAC := CAC r; ROI := ROI r;
               ROI_Ratio := Some (num_div (CLV r) (CAC r)) |}) df.

Definition cac_map_custom (cac_premium cac_regular cac_budget cac_occasional : Z)
  : gmap string Z :=
  <["Premium" := cac_premium]> (<["Regular" := cac_regular]>
    (<["Budget" := cac_budget]> (<["Occasional" := cac_occasional]> ∅))).

(** The content of [df_custom] as a function of the content of [df]. *)
Definition recompute (d : gmap string Z) (df : DataFrame) : DataFrame :=
  assign_ROI_Ratio (assign_ROI (assign_CAC d df)).

(** ** Grouping by a text column *)

Definition str_le (a b : string) : Prop := String.leb a b = true.

#[global] Instance str_le_dec (a b : string) : Decision (str_le a b).
Proof. unfold str_le. apply _. Defined.

(** The group keys of [groupby(col)]: the distinct values of the column,
    sorted. *)
Definition group_keys (col : list string) : list string :=
  merge_sort str_le (remove_dups col).

Definition groupby (key : Row → string) (df : DataFrame)
  : list (string * DataFrame) :=
  map (λ k, (k, filter (λ r, key r = k) df)) (group_keys (map key df)).

(** ['CustomerID': 'count'] on a group of a [DataFrame], where every
    CustomerID cell is present: the number of rows of the group.  The
    count over cells that can be missing is [Machine.customer_count]. *)
Definition count {A} (col : list A) : Z := len col.

(** ** Simulated Impact page: scenario projection *)

Record Scenario : Type := mkScenario {
  cac_reduction : Q;
  retention_increase : Q;
  frequency_increase : Q;
  aov_increase : Q;
  timeline : Z
}.

Definition Conservative : Scenario :=
  {| cac_reduction := 15 # 100; retention_increase := 15 # 100;
     frequency_increase := 25 # 100; aov_increase := 5 # 100;
     timeline := 12 |}.

Definition Base_Case : Scenario :=
  {| cac_reduction := 25 # 100; retention_increase := 25 # 100;
     frequency_increase := 40 # 100; aov_increase := 10 # 100;
     timeline := 12 |}.

Definition Optimistic : Scenario :=
  {| cac_reduction := 35 # 100; retention_increase := 35 # 100;
     frequency_increase := 60 # 100; aov_increase := 15 # 100;
     timeline := 12 |}.

Definition scenarios_data : gmap string Scenario :=
  <["Conservative" := Conservative]> (<["Base Case" := Base_Case]>
    (<["Optimistic" := Optimistic]> ∅)).

Record CurrentMetrics : Type := mkCurrent {
  current_cac : num;
  current_clv : num;
  current_roi : num;
  current_frequency : num;
  current_aov : num;
  current_satisfaction : num
}.

Definition current_metrics (df : DataFrame) : CurrentMetrics :=
  {| current_cac := mean (map CAC df);
     current_clv := mean (map CLV df);
     current_roi := mean (map ROI df);
     current_frequency := mean (map freq df);
     current_aov := mean (map (λ r, AvgOrderValue (input r)) df);
     current_satisfaction := mean (map (λ r, SatisfactionScore (input r)) df) |}.

Record ProjectedMetrics : Type := mkProjected {
  projected_cac : num;
  projected_frequency : num;
  projected_aov : num;
  projected_clv : num;
  projected_roi : num;
  projected_satisfaction : num
}.

Definition project (cur : CurrentMetrics) (selected_scenario : Scenario)
  : ProjectedMetrics :=
  let p_cac :=
    num_mul (current_cac cur) (Fin (1 - cac_reduction selected_scenario)) in
  let p_frequency :=
    num_mul (current_frequency cur)
            (Fin (1 + frequency_increase selected_scenario)) in
  let p_aov :=
    num_mul (current_aov cur) (Fin (1 + aov_increase selected_scenario)) in
  let p_clv := num_mul p_aov p_frequency in
  let p_roi := num_sub p_clv p_cac in
  let p_satisfaction :=
    py_min (num_mul (current_satisfaction cur) (Fin (11 # 10))) (Fin 5) in
  {| projected_cac := p_cac; projected_frequency := p_frequency;
     projected_aov := p_aov; projected_clv := p_clv; projected_roi := p_roi;
     projected_satisfaction := p_satisfaction |}.

(** The page: the scenario chosen by name, the current averages of the
    loaded frame, the projection. *)
Definition simulated_impact (df : DataFrame) (scenario : string)
  : option ProjectedMetrics :=
  s ← scenarios_data !! scenario; Some (project (current_metrics df) s).

(** ** Frames as objects: the store *)

(** A Python variable holds a reference to a frame object.  [df.copy()] and
    [df[mask]] make a new object, [df[col] = ...] changes the object in
    place. *)
Abbreviation ref := positive.

Abbreviation store := (gmap positive (list Row)).

(** A computation on the store; [None] is a reference to no object. *)
Definition M (A : Type) : Type := store → option (A * store).

Definition mret {A} (a : A) : M A := λ σ, Some (a, σ).

Definition mbind' {A B} (m : M A) (k : A → M B) : M B :=
  λ σ, match m σ with
       | Some (a, σ') => k a σ'
       | None => None
       end.

Notation "'do' x ':=' m 'in' k" := (mbind' m (λ x, k))
  (at level 10, x name, m at level 100, k at level 200).

Definition alloc (df : DataFrame) : M ref :=
  λ σ, let l := fresh (dom σ) in Some (l, <[l := df]> σ).

Definition read (l : ref) : M DataFrame :=
  λ σ, match σ !! l with Some df => Some (df, σ) | None => None end.

(** [l.copy()] *)
Definition copy (l : ref) : M ref :=
  do df := read l in alloc df.

(** [l[mask]] with the mask [p] computed from the frame itself. *)
Definition getitem_mask (l : ref) (p : Row → bool) : M ref :=
  do df := read l in alloc (select p df).

(** [l[col] = f(l)]: the object at [l] is replaced by [f] of itself. *)
Definition setitem (l : ref) (f : DataFrame → DataFrame) : M unit :=
  λ σ, match σ !! l with
       | Some df => Some (tt, <[l := f df]> σ)
       | None => None
       end.

(** Exploration page, lines 232-238: the three filters; a selection is a
    value of the column or the string "All". *)
Definition apply_filter (field : Row → string) (selected : string)
    (filtered_df : ref) : M ref :=
  if decide (selected = "All") then mret filtered_df
  else getitem_mask filtered_df (λ r, bool_decide (field r = selected)).

Definition apply_filters (df : ref)
    (selected_city selected_segment selected_zone : string) : M ref :=
  do filtered_df := copy df in
  do filtered_df := apply_filter (λ r, City (input r)) selected_city filtered_df in
  do filtered_df :=
    apply_filter (λ r, CustomerSegment (input r)) selected_segment filtered_df in
  do filtered_df := apply_filter (λ r, Zone (input r)) selected_zone filtered_df in
  mret filtered_df.

(** ROI page, lines 515-519. *)
Definition recalculate_custom (df : ref)
    (cac_premium cac_regular cac_budget cac_occasional : Z) : M ref :=
  do df_custom := copy df in
  let d := cac_map_custom cac_premium cac_regular cac_budget cac_occasional in
  do _u := setitem df_custom (assign_CAC d) in
  do _u := setitem df_custom assign_ROI in
  do _u := setitem df_custom assign_ROI_Ratio in
  mret df_custom.

(** ** Executive Summary page *)

Record KeyMetrics : Type := mkKeyMetrics {
  avg_clv : num;
  avg_cac : num;
  clv_cac_ratio : num;
  avg_satisfaction : num;
  clv_vs_cac : num;
  health : string
}.

(** Lines 133-140: the four averages, the percentage shown beside the
    average CLV and the label shown beside the ratio. *)
Definition key_metrics (df : DataFrame) : KeyMetrics :=
  let a_clv := mean (map CLV df) in
  let a_cac := mean (map CAC df) in
  let ratio := num_div a_clv a_cac in
  {| avg_clv := a_clv;
     avg_cac := a_cac;
     clv_cac_ratio := ratio;
     avg_satisfaction := mean (map (λ r, SatisfactionScore (input r)) df);
     clv_vs_cac := num_mul (num_sub (num_div a_clv a_cac) (Fin 1)) (Fin 100);
     health := if num_lt (Fin 3) ratio then "Healthy" else "Needs Improvement" |}.

(** ** Funnel page: the funnel by segment *)

(** The label of a row in the index of a frame or of a series: a position
    of a RangeIndex, or a group key.  The segment column of a [DataFrame]
    is text, so that a group key is never a position here; the labels of
    an integer segment column are in [Machine.index_label]. *)
Inductive label : Type :=
| Pos (i : nat)
| Key (k : string).

#[global] Instance label_eq_dec : EqDecision label.
Proof. solve_decision. Defined.

(** The value of a series under a label, if the label is in its index. *)
Fixpoint loc_label (s : list (label * num)) (l : label) : option num :=
  match s with
  | [] => None
  | (l', v) :: rest => if decide (l' = l) then Some v else loc_label rest l
  end.

(** [s.reindex(index)]: the values of [s] under the labels of [index], NaN
    under a label that [s] does not have.  [frame[col] = s] stores this
    column. *)
Definition reindex (s : list (label * num)) (index : list label) : list num :=
  map (λ l, default NaN (loc_label s l)) index.

(** [frame.groupby(key).size()]: a series with the group keys as index. *)
Definition size (key : Row → string) (df : DataFrame) : list (label * num) :=
  map (λ kg, (Key kg.1, of_Z (len kg.2))) (groupby key df).

(** [fillna(0)] on a cell. *)
Definition fillna0 (v : num) : num := if isna v then Fin 0 else v.

Record SegmentFunnel : Type := mkSegmentFunnel {
  Segment : string;
  Total : Z;
  Active : Z;
  Engaged : num;
  Loyal : num
}.

(** Lines 454-459: the counts per segment, then [reset_index()], which
    turns the group keys into the column Segment and numbers the rows. *)
Definition segment_totals (df : DataFrame) : list (string * Z * Z) :=
  map (λ kg, (kg.1,
              count (map (λ r, CustomerID (input r)) kg.2),
              len (filter (λ r, ge (of_Z 1) (freq r) = true) kg.2)))
      (groupby (λ r, CustomerSegment (input r)) df).

Definition range_index (n : nat) : list label := map Pos (seq 0 n).

(** Lines 454-462. *)
Definition segment_funnel (df : DataFrame) : list SegmentFunnel :=
  let totals := segment_totals df in
  let index := range_index (length totals) in
  let engaged :=
    reindex (size (λ r, CustomerSegment (input r))
               (select (λ r, between (of_Z 2) (of_Z 3) (freq r)) df)) index in
  let loyal :=
    reindex (size (λ r, CustomerSegment (input r))
               (select (λ r, ge (of_Z 4) (freq r)) df)) index in
  zip_with (λ t el, {| Segment := t.1.1; Total := t.1.2; Active := t.2;
                       Engaged := fillna0 el.1; Loyal := fillna0 el.2 |})
           totals (zip engaged loyal).

(** ** Simulated Impact page: comparison, payback, roadmap *)

(** The scenarios in the order of the dict. *)
Definition scenarios_items : list (string * Scenario) :=
  [("Conservative", Conservative); ("Base Case", Base_Case);
   ("Optimistic", Optimistic)].

(** A cell that an f-string fills: the text before the field, the format
    of the field, the text after it, and the number that is formatted. *)
Record formatted : Type := mkFormatted {
  text_before : string;
  format_spec : string;
  text_after : string;
  formatted_value : num
}.

(** One row of the comparison table, by its keys 'Scenario', 'CAC', 'CLV',
    'ROI', 'CLV/CAC', 'Order Freq' and 'Probability'. *)
Record ComparisonRow : Type := mkComparison {
  row_Scenario : string;
  row_CAC : formatted;
  row_CLV : formatted;
  row_ROI : formatted;
  row_CLV_per_CAC : formatted;
  row_Order_Freq : formatted;
  row_Probability : string
}.

Definition rupees (v : num) : formatted :=
  {| text_before := "₹"; format_spec := ",.0f"; text_after := "";
     formatted_value := v |}.

(** Lines 1412-1428: the row that the loop appends for one scenario. *)
Definition comparison_row (cur : CurrentMetrics) (item : string * Scenario)
  : ComparisonRow :=
  let scen_name := item.1 in
  let scen_data := item.2 in
  let proj_cac := num_mul (current_cac cur) (Fin (1 - cac_reduction scen_data)) in
  let proj_freq :=
    num_mul (current_frequency cur) (Fin (1 + frequency_increase scen_data)) in
  let proj_aov := num_mul (current_aov cur) (Fin (1 + aov_increase scen_data)) in
  let proj_clv := num_mul proj_aov proj_freq in
  let proj_roi := num_sub proj_clv proj_cac in
  {| row_Scenario := scen_name;
     row_CAC := rupees proj_cac;
     row_CLV := rupees proj_clv;
     row_ROI := rupees proj_roi;
     row_CLV_per_CAC :=
       {| text_before := ""; format_spec := ".2f"; text_after := "x";
          formatted_value := num_div proj_clv proj_cac |};
     row_Order_Freq :=
       {| text_before := ""; format_spec := ".1f"; text_after := "";
          formatted_value := proj_freq |};
     row_Probability :=
       if decide (scen_name = "Conservative") then "25%"
       else if decide (scen_name = "Base Case") then "50%" else "25%" |}.

Definition comparison_data (cur : CurrentMetrics) : list ComparisonRow :=
  map (comparison_row cur) scenarios_items.




(** The payback periods of the summary, line 1438:
    [projected_cac / projected_aov] and [current_cac / current_aov]. *)
Definition payback_projected (p : ProjectedMetrics) : num :=
  num_div (projected_cac p) (projected_aov p).

Definition payback_current (cur : CurrentMetrics) : num :=
  num_div (current_cac cur) (current_aov cur).

(** * The machine arithmetic of the columns

    The cells above are exact rationals; what they prove is what rounding
    cannot change.  This part computes what the code computes: a float
    column holds binary64 values ([spec_float], the IEEE 754 values of the
    Standard Library, with its correctly rounded operations), an integer
    column holds 64-bit integers that wrap around, a text column holds
    strings or missing cells. *)

Module Machine.

(** ** binary64 and int64 *)

(** The binary64 value that a decimal literal of the source denotes. *)
Definition lit (x : float) : spec_float := Prim2SF x.

(** An integer as a float: the nearest binary64 value. *)
Definition of_int (z : Z) : spec_float := binary_normalize prec emax z 0 false.

Definition is_nan (x : spec_float) : bool :=
  match x with S754_nan => true | _ => false end.

Definition is_inf (x : spec_float) : bool :=
  match x with S754_infinity _ => true | _ => false end.

(** Neither NaN nor an infinity. *)
Definition is_finite (x : spec_float) : bool := negb (is_nan x || is_inf x).

Definition is_zero (x : spec_float) : bool :=
  match x with S754_zero _ => true | _ => false end.


(** A 64-bit signed integer operation keeps the low 64 bits of its result. *)
Definition wrap64 (z : Z) : Z := ((z + 2 ^ 63) mod 2 ^ 64 - 2 ^ 63)%Z.


(** Python's builtin [min(a, b)]: [b] when [b < a], else [a]. *)
Definition py_min (a b : spec_float) : spec_float := if SFltb b a then b else a.

(** ** Columns *)

(** A numeric column of a frame: dtype int64 (no cell is missing) or dtype
    float64 (a missing cell is NaN). *)
Inductive column : Type :=
| Int64 (cells : list Z)
| Float64 (cells : list spec_float).

Definition to_floats (c : column) : list spec_float :=
  match c with
  | Int64 cells => map of_int cells
  | Float64 cells => cells
  end.

Definition col_length (c : column) : nat :=
  match c with
  | Int64 cells => length cells
  | Float64 cells => length cells
  end.

(** [a * b] and [a - b] on two columns of one frame: in int64 when both are
    int64, in float64 otherwise. *)
Definition col_mul (a b : column) : column :=
  match a, b with
  | Int64 x, Int64 y => Int64 (zip_with (λ p q, wrap64 (p * q)) x y)
  | _, _ => Float64 (zip_with SF64mul (to_floats a) (to_floats b))
  end.

Definition col_sub (a b : column) : column :=
  match a, b with
  | Int64 x, Int64 y => Int64 (zip_with (λ p q, wrap64 (p - q)) x y)
  | _, _ => Float64 (zip_with SF64sub (to_floats a) (to_floats b))
  end.

(** [a / b]: true division, always in float64. *)
Definition col_div (a b : column) : column :=
  Float64 (zip_with SF64div (to_floats a) (to_floats b)).

(** A text column: a string, or [None] for a missing cell. *)
Abbreviation text_column := (list (option string)).

(** [col.map(d)] for a dict [d] with integer values: int64 when every cell
    is a key of [d], otherwise float64 with NaN where the cell is missing
    or not a key. *)
Definition lookup_cell (d : gmap string Z) (cell : option string) : option Z :=
  match cell with
  | Some k => d !! k
  | None => None
  end.

Definition map_dict (d : gmap string Z) (col : text_column) : column :=
  let found := map (lookup_cell d) col in
  if forallb (λ v, bool_decide (is_Some v)) found
  then Int64 (map (default 0%Z) found)
  else Float64 (map (λ v, match v with
                          | Some z => of_int z
                          | None => S754_nan
                          end) found).

(** ** load_data *)

(** The frame that [read_csv] returns. *)
Record RawFrame : Type := mkRawFrame {
  CustomerID : text_column;
  City : text_column;
  Zone : text_column;
  CustomerSegment : text_column;
  AvgOrderValue : column;
  OrderFrequency : column;
  ReturnedOrders : column;
  SatisfactionScore : column
}.

(** The frame that [load_data] returns. *)
Record Frame : Type := mkFrame {
  raw : RawFrame;
  CLV : column;
  ReturnRate : column;
  CAC : column;
  ROI : column
}.

Definition cac_map : gmap string Z :=
  <["Premium" := 500%Z]> (<["Regular" := 300%Z]>
    (<["Budget" := 200%Z]> (<["Occasional" := 150%Z]> ∅))).

Definition deriveMetrics (df : RawFrame) (d : gmap string Z) : Frame :=
  let clv := col_mul (AvgOrderValue df) (OrderFrequency df) in
  let return_rate := col_div (ReturnedOrders df) (OrderFrequency df) in
  let cac := map_dict d (CustomerSegment df) in
  let roi := col_sub clv cac in
  {| raw := df; CLV := clv; ReturnRate := return_rate; CAC := cac; ROI := roi |}.

Definition load_data (csv : option RawFrame) : option Frame :=
  match csv with
  | Some df => Some (deriveMetrics df cac_map)
  | None => None
  end.

(** The number of rows, [len(df)]. *)
Definition nrows (df : RawFrame) : nat := length (CustomerID df).

(** ** describe(): count and mean of a float column *)

(** [count]: the cells that are not NaN. *)
Definition describe_count (cells : list spec_float) : Z :=
  Z.of_nat (length (filter (λ x, is_nan x = false) cells)).

(** The sum that the mean divides: the NaN cells are replaced by 0.0 and
    the cells are added.  The order in which the library adds them is its
    own (pairwise in blocks); [sums cells s] holds of every order. *)
Definition fill0 (x : spec_float) : spec_float :=
  if is_nan x then S754_zero false else x.

Inductive sums : list spec_float → spec_float → Prop :=
| sums_nil : sums [] (S754_zero false)
| sums_one (x : spec_float) : sums [x] x
| sums_split (l l1 l2 : list spec_float) (a b : spec_float) :
    l ≡ₚ l1 ++ l2 → sums l1 a → sums l2 b → sums l (SF64add a b).

(** One order: from left to right. *)
Definition sum_left (cells : list spec_float) : spec_float :=
  match cells with
  | [] => S754_zero false
  | x :: rest => fold_left SF64add rest x
  end.

(** [mean]: the sum over the count, NaN when no cell counts. *)
Definition mean_of (total : spec_float) (cells : list spec_float) : spec_float :=
  if (describe_count cells =? 0)%Z then S754_nan
  else SF64div total (of_int (describe_count cells)).

Definition is_mean (cells : list spec_float) (m : spec_float) : Prop :=
  ∃ total, sums (map fill0 cells) total ∧ m = mean_of total cells.

Definition describe_mean (cells : list spec_float) : spec_float :=
  mean_of (sum_left (map fill0 cells)) cells.

(** ** Scenario projection *)

Record Scenario : Type := mkScenario {
  cac_reduction : spec_float;
  retention_increase : spec_float;
  frequency_increase : spec_float;
  aov_increase : spec_float;
  timeline : Z
}.

Definition Conservative : Scenario :=
  {| cac_reduction := lit 0.15; retention_increase := lit 0.15;
     frequency_increase := lit 0.25; aov_increase := lit 0.05;
     timeline := 12 |}.

Definition Base_Case : Scenario :=
  {| cac_reduction := lit 0.25; retention_increase := lit 0.25;
     frequency_increase := lit 0.40; aov_increase := lit 0.10;
     timeline := 12 |}.

Definition Optimistic : Scenario :=
  {| cac_reduction := lit 0.35; retention_increase := lit 0.35;
     frequency_increase := lit 0.60; aov_increase := lit 0.15;
     timeline := 12 |}.

Record CurrentMetrics : Type := mkCurrent {
  current_cac : spec_float;
  current_clv : spec_float;
  current_roi : spec_float;
  current_frequency : spec_float;
  current_aov : spec_float;
  current_satisfaction : spec_float
}.

Record ProjectedMetrics : Type := mkProjected {
  projected_cac : spec_float;
  projected_frequency : spec_float;
  projected_aov : spec_float;
  projected_clv : spec_float;
  projected_roi : spec_float;
  projected_satisfaction : spec_float
}.

(** Lines 1241-1246. *)
Definition project (cur : CurrentMetrics) (selected_scenario : Scenario)
  : ProjectedMetrics :=
  let p_cac :=
    SF64mul (current_cac cur)
            (SF64sub (lit 1) (cac_reduction selected_scenario)) in
  let p_frequency :=
    SF64mul (current_frequency cur)
            (SF64add (lit 1) (frequency_increase selected_scenario)) in
  let p_aov :=
    SF64mul (current_aov cur)
            (SF64add (lit 1) (aov_increase selected_scenario)) in
  let p_clv := SF64mul p_aov p_frequency in
  let p_roi := SF64sub p_clv p_cac in
  let p_satisfaction :=
    py_min (SF64mul (current_satisfaction cur) (lit 1.1)) (lit 5.0) in
  {| projected_cac := p_cac; projected_frequency := p_frequency;
     projected_aov := p_aov; projected_clv := p_clv; projected_roi := p_roi;
     projected_satisfaction := p_satisfaction |}.




(** ** ROI page: the customer count of the aggregation by segment *)

(** The rows of a group-by on a text column: a row whose key cell is
    missing is in no group. *)
Definition group_keys (keys : text_column) : list string :=
  merge_sort str_le (remove_dups (omap id keys)).

(** ['CustomerID': 'count'] of [groupby('CustomerSegment')]: for each
    group key, in sorted order, the rows with that key whose CustomerID
    is not missing. *)
Definition counted (k : string) (row : option string * option string) : bool :=
  bool_decide (row.1 = Some k) && bool_decide (is_Some row.2).

Definition customer_count (keys ids : text_column) : list (string * Z) :=
  map (λ k, (k, Z.of_nat (length (filter (λ row, counted k row = true)
                                         (zip keys ids)))))
      (group_keys keys).

Definition total_count (groups : list (string * Z)) : Z :=
  foldr (λ g acc, (g.2 + acc)%Z) 0%Z groups.

(** ** Funnel page: the funnel by segment *)

(** A label of an index: an integer (a position of a RangeIndex, or a key
    of an integer column) or a string (a key of a text column). *)
Inductive index_label : Type :=
| LInt (z : Z)
| LStr (s : string).

#[global] Instance index_label_eq_dec : EqDecision index_label.
Proof. solve_decision. Defined.

(** The column that a frame is grouped by: text, or integers. *)
Inductive key_column : Type :=
| TextKeys (cells : list (option string))
| IntKeys (cells : list Z).

Definition row_labels (keys : key_column) : list (option index_label) :=
  match keys with
  | TextKeys cells => map (option_map LStr) cells
  | IntKeys cells => map (λ z, Some (LInt z)) cells
  end.

(** The group keys, sorted. *)
Definition group_labels (keys : key_column) : list index_label :=
  match keys with
  | TextKeys cells => map LStr (group_keys cells)
  | IntKeys cells => map LInt (merge_sort Z.le (remove_dups cells))
  end.

(** [col >= n] and [col.between(lo, hi)] as masks. *)
Definition col_ge (n : Z) (c : column) : list bool :=
  match c with
  | Int64 cells => map (λ z, (n <=? z)%Z) cells
  | Float64 cells => map (λ x, SFleb (of_int n) x) cells
  end.

Definition col_between (lo hi : Z) (c : column) : list bool :=
  match c with
  | Int64 cells => map (λ z, (lo <=? z)%Z && (z <=? hi)%Z) cells
  | Float64 cells =>
      map (λ x, SFleb (of_int lo) x && SFleb x (of_int hi)) cells
  end.

(** The rows with the label [k] whose flag is set. *)
Definition count_where (labels : list (option index_label)) (flags : list bool)
    (k : index_label) : Z :=
  Z.of_nat (length (filter (λ p, p.1 = Some k ∧ p.2 = true) (zip labels flags))).

(** [df[mask].groupby(key).size()] under the label [k]: the size of the
    group, and nothing when no row of the masked frame has the key. *)
Definition size_at (labels : list (option index_label)) (mask : list bool)
    (k : index_label) : option Z :=
  let n := count_where labels mask k in
  if (n =? 0)%Z then None else Some n.

(** The column that [frame[col] = series] stores: the values of the series
    under the labels of the frame's index, NaN (and so dtype float64)
    where the series has no such label. *)
Definition assigned (found : list (option Z)) : column :=
  if forallb (λ v, bool_decide (is_Some v)) found
  then Int64 (map (default 0%Z) found)
  else Float64 (map (λ v, match v with
                          | Some z => of_int z
                          | None => S754_nan
                          end) found).

(** [fillna(0)] *)
Definition fillna0 (c : column) : column :=
  match c with
  | Int64 cells => Int64 cells
  | Float64 cells => Float64 (map fill0 cells)
  end.

Record SegmentFunnel : Type := mkSegmentFunnel {
  Segment : list index_label;
  Total : list Z;
  Active : list Z;
  Engaged : column;
  Loyal : column
}.

(** Lines 454-462.  After [reset_index()] the frame has one row per group
    and the positions 0, 1, ... as its index. *)
Definition segment_funnel (keys : key_column) (ids : text_column)
    (freq : column) : SegmentFunnel :=
  let labels := row_labels keys in
  let groups := group_labels keys in
  let index := map (λ i, LInt (Z.of_nat i)) (seq 0 (length groups)) in
  {| Segment := groups;
     Total := map (count_where labels
                     (map (λ c : option string, bool_decide (is_Some c)) ids))
                  groups;
     Active := map (count_where labels (col_ge 1 freq)) groups;
     Engaged :=
       fillna0 (assigned (map (size_at labels (col_between 2 3 freq)) index));
     Loyal :=
       fillna0 (assigned (map (size_at labels (col_ge 4 freq)) index)) |}.

End Machine.

(** ** Notions of the specification *)

(** The stages in the words of the specification: a frequency is at least
    [n], or lies in the closed band from [lo] to [hi]. *)
Definition at_least (n : Z) (v : num) : Prop :=
  match v with
  | Fin q => inject_Z n <= q
  | PInf => True
  | NInf | NaN => False
  end.

Definition in_band (lo hi : Z) (v : num) : Prop :=
  match v with
  | Fin q => inject_Z lo <= q ∧ q <= inject_Z hi
  | _ => False
  end.

#[global] Instance Qle_decision (x y : Q) : Decision (x <= y).
Proof.
  destruct (Qlt_le_dec y x) as [H|H].
  - right. apply Qlt_not_le. exact H.
  - left. exact H.
Defined.

#[global] Instance at_least_dec (n : Z) (v : num) : Decision (at_least n v).
Proof. destruct v; simpl; apply _. Defined.

#[global] Instance in_band_dec (lo hi : Z) (v : num) : Decision (in_band lo hi v).
Proof. destruct v; simpl; apply _. Defined.

(** The number of rows of a table that satisfy [P]. *)
Fixpoint count_rows (P : Row → Prop) `{∀ r, Decision (P r)} (df : DataFrame) : Z :=
  match df with
  | [] => 0
  | r :: rest => ((if decide (P r) then 1 else 0) + count_rows P rest)%Z
  end.

Definition segment (r : Row) : string := CustomerSegment (input r).

(** The effect of one filter on the current [filtered_df]. *)
Definition filter_table (field : Row → string) (selected : string)
    (df : DataFrame) : DataFrame :=
  if decide (selected = "All") then df
  else select (λ r, bool_decide (field r = selected)) df.

(** What the objects that exist in [σ] hold is the same in [σ']. *)
Definition preserves (σ σ' : store) : Prop :=
  ∀ l df, σ !! l = Some df → σ' !! l = Some df.

Definition finite_metrics (cac clv roi frequency aov satisfaction : Q)
  : CurrentMetrics :=
  {| current_cac := Fin cac; current_clv := Fin clv; current_roi := Fin roi;
     current_frequency := Fin frequency; current_aov := Fin aov;
     current_satisfaction := Fin satisfaction |}.

(** ** Notions of the properties of the machine arithmetic *)

Definition group_count (rows : list (option string * option string))
    (ks : list string) : Z :=
  Machine.total_count
    (map (λ k, (k, Z.of_nat (length (filter (λ row, Machine.counted k row = true)
                                            rows)))) ks).

(** A row that groupby keeps and count counts: neither its segment nor its
    CustomerID is missing. *)
Definition complete_row (row : option string * option string) : Prop :=
  is_Some row.1 ∧ is_Some row.2.

#[global] Instance complete_row_dec (row : option string * option string) :
  Decision (complete_row row).
Proof. unfold complete_row. apply _. Defined.

(** ** A session: interactions one after the other *)

(** One interaction with a page that recomputes: the filters of the
    exploration page, or the four CAC inputs of the ROI page. *)
Inductive interaction : Type :=
| Explore (selected_city selected_segment selected_zone : string)
| Recalculate (cac_premium cac_regular cac_budget cac_occasional : Z).

Definition interact (df : ref) (a : interaction) : M ref :=
  match a with
  | Explore city seg zone => apply_filters df city seg zone
  | Recalculate p r b o => recalculate_custom df p r b o
  end.

Fixpoint session_run (df : ref) (acts : list interaction) : M unit :=
  match acts with
  | [] => mret tt
  | a :: rest => do _l := interact df a in session_run df rest
  end.

(** ** Notions of the further properties *)

Definition matches (field : Row → string) (selected : string) (r : Row) : Prop :=
  selected = "All" ∨ field r = selected.

#[global] Instance matches_dec (field : Row → string) (selected : string)
    (r : Row) : Decision (matches field selected r).
Proof. unfold matches. apply _. Defined.

(** The parameters of a scenario that improves: a CAC reduction between 0
    and 1 and increases that are not negative. *)
Definition improving (s : Scenario) : Prop :=
  0 <= cac_reduction s ∧ cac_reduction s <= 1 ∧
  0 <= frequency_increase s ∧ 0 <= aov_increase s.

(** ** Sample data *)

Definition premium_customer : CustomerRecord :=
  {| CustomerID := "C001"; City := "Pune"; Zone := "West";
     CustomerSegment := "Premium";
     AvgOrderValue := Fin (9005 # 10); OrderFrequency := Fin 3;
     ReturnedOrders := Fin 1; SatisfactionScore := Fin (42 # 10) |}.

Definition never_ordered (returned : Q) : CustomerRecord :=
  {| CustomerID := "C002"; City := "Pune"; Zone := "East";
     CustomerSegment := "Occasional";
     AvgOrderValue := Fin 250; OrderFrequency := Fin 0;
     ReturnedOrders := Fin returned; SatisfactionScore := Fin 3 |}.

Definition wholesale_customer : CustomerRecord :=
  {| CustomerID := "C003"; City := "Nagpur"; Zone := "North";
     CustomerSegment := "Wholesale";
     AvgOrderValue := Fin 1200; OrderFrequency := Fin 5;
     ReturnedOrders := Fin 0; SatisfactionScore := Fin 4 |}.

Definition with_frequency (f : Q) : Row :=
  add_computed_columns cac_map
    {| CustomerID := "C"; City := "Pune"; Zone := "West";
       CustomerSegment := "Regular"; AvgOrderValue := Fin 100;
       OrderFrequency := Fin f; ReturnedOrders := Fin 0;
       SatisfactionScore := Fin 4 |}.

Definition sample_records : list CustomerRecord :=
  [premium_customer; never_ordered 0; premium_customer;
   {| CustomerID := "C004"; City := "Mumbai"; Zone := "South";
      CustomerSegment := "Budget"; AvgOrderValue := Fin (3333 # 10);
      OrderFrequency := Fin 2; ReturnedOrders := Fin 1;
      SatisfactionScore := Fin (35 # 10) |}].

Definition sample_df : DataFrame := deriveMetrics sample_records cac_map.

(** A store in which the loaded frame is the only object. *)
Definition session : store := <[1%positive := sample_df]> ∅.


Definition zero_frequency_frame (returned : Z) : Machine.RawFrame :=
  {| Machine.CustomerID := [Some "C002"]; Machine.City := [Some "Pune"];
     Machine.Zone := [Some "East"];
     Machine.CustomerSegment := [Some "Occasional"];
     Machine.AvgOrderValue := Machine.Int64 [250%Z];
     Machine.OrderFrequency := Machine.Int64 [0%Z];
     Machine.ReturnedOrders := Machine.Int64 [returned];
     Machine.SatisfactionScore := Machine.Int64 [3%Z] |}.

Definition two_premium (second_id : option string) : Machine.RawFrame :=
  {| Machine.CustomerID := [Some "C001"; second_id];
     Machine.City := [Some "Pune"; Some "Pune"];
     Machine.Zone := [Some "West"; Some "West"];
     Machine.CustomerSegment := [Some "Premium"; Some "Premium"];
     Machine.AvgOrderValue := Machine.Int64 [450; 380]%Z;
     Machine.OrderFrequency := Machine.Int64 [3; 2]%Z;
     Machine.ReturnedOrders := Machine.Int64 [0; 1]%Z;
     Machine.SatisfactionScore := Machine.Float64 [Machine.lit 4.2;
                                                   Machine.lit 3.9] |}.

(** * Properties *)

(** ** Cells *)

#[global] Instance num_eq_refl : Reflexive num_eq.
Proof. intros [q| | |]; simpl; auto. reflexivity. Qed.

#[global] Instance num_eq_sym : Symmetric num_eq.
Proof. intros [x| | |] [y| | |]; simpl; auto. intros H; symmetry; exact H. Qed.

#[global] Instance num_eq_trans : Transitive num_eq.
Proof.
  intros [x| | |] [y| | |] [z| | |]; simpl; try tauto.
  intros H1 H2. rewrite H1. exact H2.
Qed.

(** ** Lists of rows *)

Lemma lookup_map {A B} (f : A → B) (l : list A) (i : nat) :
  map f l !! i = f <$> (l !! i).
Proof.
  revert i; induction l as [|a l IH]; intros [|i]; simpl; auto.
Qed.

Lemma lookup_map_Some {A B} (f : A → B) (l : list A) (i : nat) (a : A) :
  l !! i = Some a → map f l !! i = Some (f a).
Proof. intros H. rewrite lookup_map, H. reflexivity. Qed.

(** ** Metric derivation *)

(** A record with one returned order and no order has a return rate of
    +inf, not NaN, and [mean] does not leave it out: the mean of the column
    is +inf, not the mean 1/3 of the other row. *)
Lemma zero_frequency_not_nan :
  let df := deriveMetrics [never_ordered 1; premium_customer] cac_map in
  OrderFrequency (never_ordered 1) = Fin 0 ∧
  map ReturnRate df = [PInf; Fin (1 / 3)] ∧
  map isna (map ReturnRate df) = [false; false] ∧
  mean (map ReturnRate df) = PInf ∧
  ¬ (∀ r : CustomerRecord, OrderFrequency r =n= Fin 0 →
       ReturnRate (add_computed_columns cac_map r) = NaN).
Proof.
  repeat split.
  intros H. specialize (H (never_ordered 1)).
  simpl in H. discriminate H. reflexivity.
Qed.

(** ** A segment without an entry in the mapping *)

Lemma length_deriveMetrics (records : list CustomerRecord) (d : gmap string Z) :
  length (deriveMetrics records d) = length records.
Proof. apply length_map. Qed.

Lemma length_recompute (d : gmap string Z) (df : DataFrame) :
  length (recompute d df) = length df.
Proof.
  unfold recompute, assign_ROI_Ratio, assign_ROI, assign_CAC.
  rewrite !length_map. reflexivity.
Qed.

Lemma recompute_lookup (d : gmap string Z) (df : DataFrame) (i : nat) (r : Row) :
  df !! i = Some r →
  recompute d df !! i =
    Some {| input := input r; CLV := CLV r; ReturnRate := ReturnRate r;
            CAC := map_dict d (CustomerSegment (input r));
            ROI := num_sub (CLV r) (map_dict d (CustomerSegment (input r)));
            ROI_Ratio :=
              Some (num_div (CLV r) (map_dict d (CustomerSegment (input r)))) |}.
Proof.
  intros H. unfold recompute, assign_ROI_Ratio, assign_ROI, assign_CAC.
  rewrite !lookup_map, H. reflexivity.
Qed.

Lemma num_sub_nan (a : num) : num_sub a NaN = NaN.
Proof. destruct a; reflexivity. Qed.

Lemma num_div_nan (a : num) : num_div a NaN = NaN.
Proof. destruct a; reflexivity. Qed.

(** "Wholesale" is not a key of the default mapping: [load_data] returns
    the table all the same, the record is kept, and its CAC and ROI are
    NaN; so does the recomputation under the custom mapping. *)
Lemma unmapped_segment_no_error :
  cac_map !! CustomerSegment wholesale_customer = None ∧
  load_data (Some [wholesale_customer]) =
    Some [ {| input := wholesale_customer; CLV := Fin (1200 * 5);
              ReturnRate := Fin (0 / 5); CAC := NaN; ROI := NaN;
              ROI_Ratio := None |} ] ∧
  map CAC (recompute (cac_map_custom 500 300 200 150)
             (deriveMetrics [wholesale_customer] cac_map)) = [NaN].
Proof. repeat split. Qed.

(** C4, amended.  Metric derivation raises no error for a segment that the
    mapping lacks: every record is kept, in its place, and a record whose
    segment is absent gets CAC = NaN and hence ROI = NaN; under the custom
    mapping of the ROI page also ROI_Ratio = NaN. *)
Theorem unmapped_segment_is_nan (records : list CustomerRecord)
    (d : gmap string Z) (i : nat) (r : CustomerRecord) :
  records !! i = Some r →
  d !! CustomerSegment r = None →
  length (deriveMetrics records d) = length records ∧
  (∃ row, deriveMetrics records d !! i = Some row ∧ input row = r ∧
          CAC row = NaN ∧ ROI row = NaN) ∧
  (∀ d0, ∃ row, recompute d (deriveMetrics records d0) !! i = Some row ∧
          input row = r ∧ CAC row = NaN ∧ ROI row = NaN ∧
          ROI_Ratio row = Some NaN).
Proof.
  intros Hi Hd. split; [apply length_deriveMetrics|]. split.
  - exists (add_computed_columns d r).
    split; [apply lookup_map_Some; exact Hi|].
    simpl. unfold map_dict. rewrite Hd.
    repeat split. apply num_sub_nan.
  - intros d0. eexists. split.
    + apply recompute_lookup. apply lookup_map_Some. exact Hi.
    + simpl. unfold map_dict. rewrite Hd.
      rewrite num_sub_nan, num_div_nan. repeat split.
Qed.

Lemma unmapped_segment_is_nan_witness :
  length (deriveMetrics [premium_customer; wholesale_customer] cac_map) =
    length [premium_customer; wholesale_customer] ∧
  (∃ row, deriveMetrics [premium_customer; wholesale_customer] cac_map !! 1%nat
            = Some row ∧
          input row = wholesale_customer ∧ CAC row = NaN ∧ ROI row = NaN) ∧
  (∀ d0, ∃ row,
     recompute cac_map
       (deriveMetrics [premium_customer; wholesale_customer] d0) !! 1%nat
       = Some row ∧
     input row = wholesale_customer ∧ CAC row = NaN ∧ ROI row = NaN ∧
     ROI_Ratio row = Some NaN).
Proof.
  apply (unmapped_segment_is_nan [premium_customer; wholesale_customer]
           cac_map 1 wholesale_customer); reflexivity.
Defined.

(** ** Funnel stages *)

Lemma ge_at_least (n : Z) (v : num) : ge (of_Z n) v = true ↔ at_least n v.
Proof.
  unfold ge, num_ge, of_Z. destruct v; simpl; try apply Qle_bool_iff;
    split; auto; discriminate.
Qed.

Lemma between_in_band (lo hi : Z) (v : num) :
  between (of_Z lo) (of_Z hi) v = true ↔ in_band lo hi v.
Proof.
  unfold between, of_Z. destruct v; simpl;
    try (split; [discriminate | tauto]).
  rewrite andb_true_iff, !Qle_bool_iff. reflexivity.
Qed.

Lemma len_select_count (p : Row → bool) (P : Row → Prop)
    `{∀ r, Decision (P r)} (df : DataFrame) :
  (∀ r, p r = true ↔ P r) →
  len (select p df) = count_rows P df.
Proof.
  intros Hp. unfold len, select.
  induction df as [|r df IH]; [reflexivity|].
  rewrite filter_cons. simpl count_rows. rewrite <- IH.
  destruct (decide (P r)) as [HP|HP]; case_decide as Hd.
  - cbn [length]. lia.
  - apply Hp in HP. contradiction.
  - apply Hp in Hd. contradiction.
  - lia.
Qed.

Lemma at_least_mono (n m : Z) (v : num) :
  (n <= m)%Z → at_least m v → at_least n v.
Proof.
  intros Hnm. destruct v; simpl; auto.
  intros H. apply Qle_trans with (inject_Z m); [|exact H].
  rewrite <- Zle_Qle. exact Hnm.
Qed.

Lemma in_band_at_least (lo hi : Z) (v : num) : in_band lo hi v → at_least lo v.
Proof. destruct v; simpl; tauto. Qed.

Lemma in_band_below (lo hi m : Z) (v : num) :
  (hi < m)%Z → in_band lo hi v → ¬ at_least m v.
Proof.
  intros Hm. destruct v; simpl; try tauto.
  intros [_ H1] H2.
  assert (inject_Z m <= inject_Z hi) as H by (eapply Qle_trans; eauto).
  rewrite <- Zle_Qle in H. lia.
Qed.

Lemma count_rows_bounds (P : Row → Prop) `{∀ r, Decision (P r)} (df : DataFrame) :
  (0 <= count_rows P df <= len df)%Z.
Proof.
  unfold len. induction df as [|r df IH]; simpl count_rows; cbn [length].
  - lia.
  - destruct (decide (P r)); lia.
Qed.

Lemma count_rows_disjoint (P1 P2 P : Row → Prop)
    `{∀ r, Decision (P1 r)} `{∀ r, Decision (P2 r)} `{∀ r, Decision (P r)}
    (df : DataFrame) :
  (∀ r, P1 r → P r) → (∀ r, P2 r → P r) → (∀ r, P1 r → ¬ P2 r) →
  (count_rows P1 df + count_rows P2 df <= count_rows P df)%Z.
Proof.
  intros Hsub1 Hsub2 Hdisj.
  induction df as [|r df IH]; simpl count_rows; [lia|].
  destruct (decide (P1 r)) as [Y1|N1]; destruct (decide (P2 r)) as [Y2|N2];
    destruct (decide (P r)) as [Y|N]; try lia;
    solve [exfalso; eapply Hdisj; eauto | exfalso; apply N; auto].
Qed.

Lemma classifyFunnel_counts (df : DataFrame) :
  classifyFunnel df =
  {| total_customers := len df;
     stage_1_order := count_rows (λ r, at_least 1 (freq r)) df;
     stage_2_3_orders := count_rows (λ r, in_band 2 3 (freq r)) df;
     stage_4plus_orders := count_rows (λ r, at_least 4 (freq r)) df |}.
Proof.
  unfold classifyFunnel. f_equal.
  - apply len_select_count. intros r. apply ge_at_least.
  - apply len_select_count. intros r. apply between_in_band.
  - apply len_select_count. intros r. apply ge_at_least.
Qed.

Lemma funnel_counts_order_aux (df : DataFrame) :
  let f := classifyFunnel df in
  (stage_1_order f <= total_customers f)%Z ∧
  (0 <= stage_1_order f)%Z ∧
  (0 <= stage_2_3_orders f)%Z ∧
  (0 <= stage_4plus_orders f)%Z ∧
  (stage_2_3_orders f + stage_4plus_orders f <= stage_1_order f)%Z.
Proof.
  intros f. subst f. rewrite classifyFunnel_counts. simpl.
  pose proof (count_rows_bounds (λ r, at_least 1 (freq r)) df).
  pose proof (count_rows_bounds (λ r, at_least 4 (freq r)) df).
  pose proof (count_rows_bounds (λ r, in_band 2 3 (freq r)) df).
  assert (D : (count_rows (λ r, in_band 2 3 (freq r)) df +
               count_rows (λ r, at_least 4 (freq r)) df
               <= count_rows (λ r, at_least 1 (freq r)) df)%Z).
  { apply count_rows_disjoint.
    - intros r Hr. apply at_least_mono with 2%Z; [lia|].
      eapply in_band_at_least; eauto.
    - intros r. apply at_least_mono. lia.
    - intros r. apply in_band_below. lia. }
  lia.
Qed.

(** C6.  For every table, registered is the number of rows, activeCount the
    number of rows with OrderFrequency >= 1, engagedCount the number of
    rows with 2 <= OrderFrequency <= 3 (a frequency of 2 and one of 3 both
    count) and loyalCount the number of rows with OrderFrequency >= 4. *)
Theorem classifyFunnel_spec (df : DataFrame) :
  total_customers (classifyFunnel df) = Z.of_nat (length df) ∧
  stage_1_order (classifyFunnel df) = count_rows (λ r, at_least 1 (freq r)) df ∧
  stage_2_3_orders (classifyFunnel df) =
    count_rows (λ r, in_band 2 3 (freq r)) df ∧
  stage_4plus_orders (classifyFunnel df) =
    count_rows (λ r, at_least 4 (freq r)) df ∧
  stage_2_3_orders (classifyFunnel [with_frequency 2]) = 1%Z ∧
  stage_2_3_orders (classifyFunnel [with_frequency 3]) = 1%Z ∧
  stage_2_3_orders (classifyFunnel [with_frequency (19 # 10)]) = 0%Z ∧
  stage_2_3_orders (classifyFunnel [with_frequency (31 # 10)]) = 0%Z ∧
  stage_4plus_orders (classifyFunnel [with_frequency 4]) = 1%Z ∧
  stage_4plus_orders (classifyFunnel [with_frequency 1000]) = 1%Z.
Proof.
  rewrite classifyFunnel_counts. simpl.
  repeat split; reflexivity.
Qed.

(** C7.  For every table, registered >= activeCount >= 0 and
    engagedCount + loyalCount <= activeCount: the band from 2 to 3 and the
    frequencies of at least 4 are disjoint parts of the frequencies of at
    least 1. *)
Theorem funnel_counts_ordered (df : DataFrame) :
  let f := classifyFunnel df in
  (total_customers f >= stage_1_order f)%Z ∧
  (stage_1_order f >= 0)%Z ∧
  (stage_2_3_orders f + stage_4plus_orders f <= stage_1_order f)%Z ∧
  (∀ r, in_band 2 3 (freq r) → at_least 1 (freq r)) ∧
  (∀ r, at_least 4 (freq r) → at_least 1 (freq r)) ∧
  (∀ r, in_band 2 3 (freq r) → ¬ at_least 4 (freq r)).
Proof.
  intros f. subst f.
  pose proof (funnel_counts_order_aux df) as Hord. cbv zeta in Hord.
  destruct Hord as (H1 & H2 & H3 & H4 & H5).
  split; [lia|]. split; [lia|]. split; [exact H5|].
  split; [|split].
  - intros r H. apply at_least_mono with 2%Z; [lia|].
    eapply in_band_at_least; eauto.
  - intros r. apply at_least_mono. lia.
  - intros r. apply in_band_below. lia.
Qed.

(** ** Drop-off rates *)





Example dropoff_8_6 : dropoff 8 6 = inr (inject_Z 2 / inject_Z 8 * 100).
Proof. reflexivity. Qed.

(** ** The loaded frame is never changed in place *)

Lemma fresh_not_in (σ : store) (l : ref) (df : DataFrame) :
  σ !! l = Some df → fresh (dom σ) ≠ l.
Proof.
  intros H E. apply (is_fresh (dom σ)). rewrite E.
  apply elem_of_dom. eexists; exact H.
Qed.

Lemma copy_run (σ : store) (l : ref) (df : DataFrame) :
  σ !! l = Some df →
  copy l σ = Some (fresh (dom σ), <[fresh (dom σ) := df]> σ).
Proof. intros H. unfold copy, mbind', read, alloc. rewrite H. reflexivity. Qed.

Lemma setitem_run (σ : store) (l : ref) (df : DataFrame)
    (f : DataFrame → DataFrame) :
  σ !! l = Some df → setitem l f σ = Some (tt, <[l := f df]> σ).
Proof. intros H. unfold setitem. rewrite H. reflexivity. Qed.

Lemma getitem_mask_run (σ : store) (l : ref) (df : DataFrame) (p : Row → bool) :
  σ !! l = Some df →
  getitem_mask l p σ
  = Some (fresh (dom σ), <[fresh (dom σ) := select p df]> σ).
Proof.
  intros H. unfold getitem_mask, mbind', read, alloc. rewrite H. reflexivity.
Qed.

#[global] Instance preserves_refl : Reflexive preserves.
Proof. intros σ l df H. exact H. Qed.

#[global] Instance preserves_trans : Transitive preserves.
Proof. intros σ1 σ2 σ3 H12 H23 l df H. apply H23, H12, H. Qed.

Lemma preserves_alloc (σ : store) (df : DataFrame) :
  preserves σ (<[fresh (dom σ) := df]> σ).
Proof.
  intros l t H. rewrite lookup_insert_ne; [exact H|].
  eapply fresh_not_in; eauto.
Qed.

Lemma preserves_None (σ σ' : store) (l : ref) :
  preserves σ σ' → σ' !! l = None → σ !! l = None.
Proof.
  intros P H. destruct (σ !! l) as [df|] eqn:E; [|reflexivity].
  apply P in E. congruence.
Qed.

Lemma fresh_None (σ : store) : σ !! fresh (dom σ) = None.
Proof. apply not_elem_of_dom. apply is_fresh. Qed.

Lemma apply_filter_run (σ : store) (field : Row → string) (selected : string)
    (l : ref) (df : DataFrame) :
  σ !! l = Some df →
  ∃ l' σ', apply_filter field selected l σ = Some (l', σ') ∧
    σ' !! l' = Some (filter_table field selected df) ∧
    preserves σ σ' ∧
    (l' = l ∨ σ !! l' = None).
Proof.
  intros H. unfold apply_filter, filter_table.
  destruct (decide (selected = "All")).
  - exists l, σ. repeat split; [exact H|reflexivity|left; reflexivity].
  - rewrite (getitem_mask_run _ _ _ _ H).
    eexists _, _. split; [reflexivity|]. split; [|split].
    + apply lookup_insert_eq.
    + apply preserves_alloc.
    + right. apply fresh_None.
Qed.

Lemma apply_filters_run (σ : store) (df : ref) (t : DataFrame)
    (city seg zone : string) :
  σ !! df = Some t →
  ∃ l σ', apply_filters df city seg zone σ = Some (l, σ') ∧
    σ !! l = None ∧
    σ' !! l =
      Some (filter_table (λ r, Zone (input r)) zone
             (filter_table (λ r, CustomerSegment (input r)) seg
               (filter_table (λ r, City (input r)) city t))) ∧
    preserves σ σ'.
Proof.
  intros H. unfold apply_filters, mbind' at 1.
  rewrite (copy_run _ _ _ H).
  set (l0 := fresh (dom σ)). set (σ0 := <[l0 := t]> σ).
  assert (H0 : σ0 !! l0 = Some t) by apply lookup_insert_eq.
  assert (P0 : preserves σ σ0) by apply preserves_alloc.
  assert (N0 : σ !! l0 = None) by apply fresh_None.
  destruct (apply_filter_run σ0 (λ r, City (input r)) city l0 t H0)
    as (l1 & σ1 & E1 & H1 & P1 & F1).
  unfold mbind' at 1. rewrite E1.
  assert (N1 : σ !! l1 = None).
  { destruct F1 as [->|F1]; [exact N0|]. eapply preserves_None; eauto. }
  destruct (apply_filter_run σ1 (λ r, CustomerSegment (input r)) seg l1 _ H1)
    as (l2 & σ2 & E2 & H2 & P2 & F2).
  unfold mbind' at 1. rewrite E2.
  assert (P01 : preserves σ σ1) by (etransitivity; eauto).
  assert (N2 : σ !! l2 = None).
  { destruct F2 as [->|F2]; [exact N1|]. eapply preserves_None; eauto. }
  destruct (apply_filter_run σ2 (λ r, Zone (input r)) zone l2 _ H2)
    as (l3 & σ3 & E3 & H3 & P3 & F3).
  unfold mbind' at 1. rewrite E3. unfold mret.
  assert (P02 : preserves σ σ2) by (etransitivity; eauto).
  assert (N3 : σ !! l3 = None).
  { destruct F3 as [->|F3]; [exact N2|]. eapply preserves_None; eauto. }
  exists l3, σ3. split; [reflexivity|]. split; [exact N3|].
  split; [exact H3|]. etransitivity; eauto.
Qed.

Lemma recalculate_custom_run (σ : store) (df : ref) (t : DataFrame)
    (cac_premium cac_regular cac_budget cac_occasional : Z) :
  σ !! df = Some t →
  let d := cac_map_custom cac_premium cac_regular cac_budget cac_occasional in
  recalculate_custom df cac_premium cac_regular cac_budget cac_occasional σ
  = Some (fresh (dom σ), <[fresh (dom σ) := recompute d t]> σ).
Proof.
  intros H d. unfold recalculate_custom, mbind' at 1.
  rewrite (copy_run _ _ _ H).
  set (l := fresh (dom σ)).
  unfold mbind' at 1. erewrite setitem_run by apply lookup_insert_eq.
  rewrite insert_insert_eq.
  unfold mbind' at 1. erewrite setitem_run by apply lookup_insert_eq.
  rewrite insert_insert_eq.
  unfold mbind' at 1. erewrite setitem_run by apply lookup_insert_eq.
  rewrite insert_insert_eq. reflexivity.
Qed.

(** An assignment through the variable [df] itself would change the
    loaded frame: the copies are what keeps it intact. *)
Remark setitem_changes_object (σ : store) (df : ref) (t : DataFrame)
    (d : gmap string Z) :
  σ !! df = Some t →
  ∃ σ', setitem df (assign_CAC d) σ = Some (tt, σ') ∧
        σ' !! df = Some (assign_CAC d t).
Proof.
  intros H. rewrite (setitem_run _ _ _ _ H).
  eexists. split; [reflexivity|]. apply lookup_insert_eq.
Qed.

(** C9.  The loaded table is not changed by a recomputation: applying the
    City, Segment and Zone filters, or a custom segment-to-CAC mapping,
    makes a new table object, and afterwards the loaded table (as every
    other table that existed before) holds the rows it held before. *)
Theorem loaded_frame_unchanged (σ : store) (df : ref) (t : DataFrame)
    (selected_city selected_segment selected_zone : string)
    (cac_premium cac_regular cac_budget cac_occasional : Z) :
  σ !! df = Some t →
  (∃ filtered_df σ',
     apply_filters df selected_city selected_segment selected_zone σ
       = Some (filtered_df, σ') ∧
     filtered_df ≠ df ∧ σ !! filtered_df = None ∧
     σ' !! df = Some t ∧ preserves σ σ' ∧
     σ' !! filtered_df =
       Some (filter_table (λ r, Zone (input r)) selected_zone
              (filter_table (λ r, CustomerSegment (input r)) selected_segment
                (filter_table (λ r, City (input r)) selected_city t)))) ∧
  (∃ df_custom σ',
     recalculate_custom df cac_premium cac_regular cac_budget cac_occasional σ
       = Some (df_custom, σ') ∧
     df_custom ≠ df ∧ σ !! df_custom = None ∧
     σ' !! df = Some t ∧ preserves σ σ' ∧
     σ' !! df_custom =
       Some (recompute (cac_map_custom cac_premium cac_regular cac_budget
                          cac_occasional) t)).
Proof.
  intros H. split.
  - destruct (apply_filters_run σ df t selected_city selected_segment
                selected_zone H) as (l & σ' & E & N & Hl & P).
    exists l, σ'. repeat split; auto. congruence.
  - rewrite (recalculate_custom_run _ _ _ _ _ _ _ H).
    eexists _, _. split; [reflexivity|].
    split; [eapply fresh_not_in; eauto|].
    split; [apply fresh_None|].
    split; [apply preserves_alloc; exact H|].
    split; [apply preserves_alloc|apply lookup_insert_eq].
Qed.

Lemma loaded_frame_unchanged_witness :
  (∃ filtered_df σ',
     apply_filters 1%positive "Pune" "All" "West" session
       = Some (filtered_df, σ') ∧
     filtered_df ≠ 1%positive ∧ session !! filtered_df = None ∧
     σ' !! 1%positive = Some sample_df ∧ preserves session σ' ∧
     σ' !! filtered_df =
       Some (filter_table (λ r, Zone (input r)) "West"
              (filter_table (λ r, CustomerSegment (input r)) "All"
                (filter_table (λ r, City (input r)) "Pune" sample_df)))) ∧
  (∃ df_custom σ',
     recalculate_custom 1%positive 450 300 250 100 session
       = Some (df_custom, σ') ∧
     df_custom ≠ 1%positive ∧ session !! df_custom = None ∧
     σ' !! 1%positive = Some sample_df ∧ preserves session σ' ∧
     σ' !! df_custom =
       Some (recompute (cac_map_custom 450 300 250 100) sample_df)).
Proof.
  apply (loaded_frame_unchanged session 1%positive sample_df
           "Pune" "All" "West" 450 300 250 100).
  reflexivity.
Defined.

(** ** Columns that a custom mapping leaves alone *)

(** C10.  In the table recomputed under a custom mapping only CAC, ROI and
    ROI_Ratio come from the new mapping; each row keeps its CLV, its
    ReturnRate and its input columns CustomerID, City, Zone,
    CustomerSegment, AvgOrderValue, OrderFrequency, ReturnedOrders and
    SatisfactionScore. *)
Theorem custom_mapping_frame (σ : store) (df : ref) (t : DataFrame)
    (cac_premium cac_regular cac_budget cac_occasional : Z) :
  σ !! df = Some t →
  let d := cac_map_custom cac_premium cac_regular cac_budget cac_occasional in
  ∃ df_custom σ' t',
    recalculate_custom df cac_premium cac_regular cac_budget cac_occasional σ
      = Some (df_custom, σ') ∧
    σ' !! df_custom = Some t' ∧
    length t' = length t ∧
    ∀ i r, t !! i = Some r →
      ∃ r', t' !! i = Some r' ∧
        CustomerID (input r') = CustomerID (input r) ∧
        City (input r') = City (input r) ∧
        Zone (input r') = Zone (input r) ∧
        CustomerSegment (input r') = CustomerSegment (input r) ∧
        AvgOrderValue (input r') = AvgOrderValue (input r) ∧
        OrderFrequency (input r') = OrderFrequency (input r) ∧
        ReturnedOrders (input r') = ReturnedOrders (input r) ∧
        SatisfactionScore (input r') = SatisfactionScore (input r) ∧
        CLV r' = CLV r ∧
        ReturnRate r' = ReturnRate r ∧
        CAC r' = map_dict d (CustomerSegment (input r)) ∧
        ROI r' = num_sub (CLV r) (CAC r') ∧
        ROI_Ratio r' = Some (num_div (CLV r) (CAC r')).
Proof.
  intros H d.
  exists (fresh (dom σ)), (<[fresh (dom σ) := recompute d t]> σ), (recompute d t).
  split; [apply recalculate_custom_run; exact H|].
  split; [apply lookup_insert_eq|].
  split; [apply length_recompute|].
  intros i r Hr. eexists. split; [apply recompute_lookup; exact Hr|].
  simpl. repeat split.
Qed.

Lemma custom_mapping_frame_witness :
  let d := cac_map_custom 450 300 250 100 in
  ∃ df_custom σ' t',
    recalculate_custom 1%positive 450 300 250 100 session
      = Some (df_custom, σ') ∧
    σ' !! df_custom = Some t' ∧
    length t' = length sample_df ∧
    ∀ i r, sample_df !! i = Some r →
      ∃ r', t' !! i = Some r' ∧
        CustomerID (input r') = CustomerID (input r) ∧
        City (input r') = City (input r) ∧
        Zone (input r') = Zone (input r) ∧
        CustomerSegment (input r') = CustomerSegment (input r) ∧
        AvgOrderValue (input r') = AvgOrderValue (input r) ∧
        OrderFrequency (input r') = OrderFrequency (input r) ∧
        ReturnedOrders (input r') = ReturnedOrders (input r) ∧
        SatisfactionScore (input r') = SatisfactionScore (input r) ∧
        CLV r' = CLV r ∧
        ReturnRate r' = ReturnRate r ∧
        CAC r' = map_dict d (CustomerSegment (input r)) ∧
        ROI r' = num_sub (CLV r) (CAC r') ∧
        ROI_Ratio r' = Some (num_div (CLV r) (CAC r')).
Proof.
  apply (custom_mapping_frame session 1%positive sample_df 450 300 250 100).
  reflexivity.
Defined.

Example sample_custom_cac :
  map CAC (recompute (cac_map_custom 450 300 250 100) sample_df)
  = [Fin 450; Fin 100; Fin 450; Fin 250] ∧
  map CAC sample_df = [Fin 500; Fin 150; Fin 500; Fin 200] ∧
  map CLV (recompute (cac_map_custom 450 300 250 100) sample_df)
  = map CLV sample_df.
Proof. repeat split. Qed.

(** * Further properties of the pages *)

(** ** Funnel page: the five rates *)

Lemma percent_inr (n d : Z) (q : Q) :
  percent n d = inr q → d ≠ 0%Z ∧ q = inject_Z n / inject_Z d * 100.
Proof.
  unfold percent, int_truediv.
  destruct (Z.eqb_spec d 0) as [E|E]; simpl; [discriminate|].
  intros H. injection H as <-. split; [exact E|reflexivity].
Qed.

Lemma funnel_rates_inr (f : Funnel) (rates : FunnelRates) :
  funnel_rates f = inr rates →
  total_customers f ≠ 0%Z ∧ stage_1_order f ≠ 0%Z ∧ stage_2_3_orders f ≠ 0%Z ∧
  conv_rate_1 rates =
    inject_Z (stage_1_order f) / inject_Z (total_customers f) * 100 ∧
  conv_rate_2 rates =
    inject_Z (stage_2_3_orders f) / inject_Z (stage_1_order f) * 100 ∧
  conv_rate_3 rates =
    inject_Z (stage_4plus_orders f) / inject_Z (stage_2_3_orders f) * 100 ∧
  dropoff_1_2 rates =
    inject_Z (stage_1_order f - stage_2_3_orders f)
      / inject_Z (stage_1_order f) * 100 ∧
  dropoff_2_3 rates =
    inject_Z (stage_2_3_orders f - stage_4plus_orders f)
      / inject_Z (stage_2_3_orders f) * 100.
Proof.
  unfold funnel_rates, dropoff. intros H.
  destruct (percent (stage_1_order f) (total_customers f)) as [e|c1] eqn:E1;
    [discriminate H|]. simpl in H.
  destruct (percent (stage_2_3_orders f) (stage_1_order f)) as [e|c2] eqn:E2;
    [discriminate H|]. simpl in H.
  destruct (percent (stage_4plus_orders f) (stage_2_3_orders f)) as [e|c3] eqn:E3;
    [discriminate H|]. simpl in H.
  destruct (percent (stage_1_order f - stage_2_3_orders f) (stage_1_order f))
    as [e|d12] eqn:E4; [discriminate H|]. simpl in H.
  destruct (percent (stage_2_3_orders f - stage_4plus_orders f)
              (stage_2_3_orders f)) as [e|d23] eqn:E5; [discriminate H|].
  simpl in H. injection H as <-. simpl.
  apply percent_inr in E1 as [? ->], E2 as [? ->], E3 as [? ->],
    E4 as [? ->], E5 as [? ->].
  repeat split; assumption.
Qed.

Lemma Qpercent_bounds (x y : Q) :
  0 <= x → x <= y → 0 < y → 0 <= x / y * 100 ∧ x / y * 100 <= 100.
Proof.
  intros Hx Hxy Hy. split.
  - apply Qmult_le_0_compat; [|discriminate].
    apply Qle_shift_div_l; [exact Hy|]. lra.
  - assert (x / y <= 1) by (apply Qle_shift_div_r; [exact Hy|lra]). lra.
Qed.

Lemma inject_Z_pos (z : Z) : (0 < z)%Z → 0 < inject_Z z.
Proof. intros H. change 0 with (inject_Z 0). rewrite <- Zlt_Qlt. exact H. Qed.

Lemma inject_Z_nonneg (z : Z) : (0 <= z)%Z → 0 <= inject_Z z.
Proof. intros H. change 0 with (inject_Z 0). rewrite <- Zle_Qle. exact H. Qed.

(** When the funnel page computes its rates, the first two conversion
    rates and the first drop-off lie between 0 and 100, the third
    conversion rate is not negative, and the second drop-off is at most
    100 and is negative exactly when the customers with at least 4 orders
    outnumber those with 2 to 3. *)
Theorem funnel_rates_ranges (df : DataFrame) (rates : FunnelRates) :
  funnel_rates (classifyFunnel df) = inr rates →
  (0 <= conv_rate_1 rates ∧ conv_rate_1 rates <= 100) ∧
  (0 <= conv_rate_2 rates ∧ conv_rate_2 rates <= 100) ∧
  0 <= conv_rate_3 rates ∧
  (0 <= dropoff_1_2 rates ∧ dropoff_1_2 rates <= 100) ∧
  dropoff_2_3 rates <= 100 ∧
  (dropoff_2_3 rates < 0 ↔
   (stage_2_3_orders (classifyFunnel df)
    < stage_4plus_orders (classifyFunnel df))%Z).
Proof.
  intros H.
  pose proof (funnel_counts_order_aux df) as Hord. cbv zeta in Hord.
  destruct Hord as (H1 & H2 & H3 & H4 & H5).
  apply funnel_rates_inr in H
    as (Ht & Hs1 & Hs23 & -> & -> & -> & -> & ->).
  generalize dependent (classifyFunnel df).
  intros [t s1 s23 s4]; simpl. intros G1 G2 G3 G4 G5 G6 G7 G8.
  assert (P1 : 0 < inject_Z s1) by (apply inject_Z_pos; lia).
  assert (P23 : 0 < inject_Z s23) by (apply inject_Z_pos; lia).
  assert (Pt : 0 < inject_Z t) by (apply inject_Z_pos; lia).
  split.
  { apply Qpercent_bounds; [apply inject_Z_nonneg; lia| |exact Pt].
    rewrite <- Zle_Qle. lia. }
  split.
  { apply Qpercent_bounds; [apply inject_Z_nonneg; lia| |exact P1].
    rewrite <- Zle_Qle. lia. }
  assert (P4 : 0 <= inject_Z s4) by (apply inject_Z_nonneg; lia).
  split.
  { apply Qmult_le_0_compat; [|discriminate].
    apply Qle_shift_div_l; [exact P23|]. lra. }
  split.
  { apply Qpercent_bounds; [apply inject_Z_nonneg; lia| |exact P1].
    rewrite <- Zle_Qle. lia. }
  assert (E : inject_Z (s23 - s4) == inject_Z s23 - inject_Z s4).
  { unfold Z.sub, Qminus. rewrite inject_Z_plus, inject_Z_opp. reflexivity. }
  split.
  { assert (inject_Z (s23 - s4) / inject_Z s23 <= 1).
    { apply Qle_shift_div_r; [exact P23|]. rewrite E. lra. }
    lra. }
  split.
  - intros Hneg.
    destruct (Z_lt_le_dec s23 s4) as [Hlt|Hge]; [exact Hlt|exfalso].
    assert (0 <= inject_Z (s23 - s4) / inject_Z s23).
    { apply Qle_shift_div_l; [exact P23|].
      assert (0 <= inject_Z (s23 - s4)) by (apply inject_Z_nonneg; lia). lra. }
    lra.
  - intros Hlt.
    assert (inject_Z (s23 - s4) / inject_Z s23 < 0).
    { apply Qlt_shift_div_r; [exact P23|].
      assert (inject_Z s23 < inject_Z s4) by (rewrite <- Zlt_Qlt; lia).
      rewrite E. lra. }
    lra.
Qed.

Lemma funnel_rates_ranges_witness :
  ∃ rates, funnel_rates (classifyFunnel sample_df) = inr rates ∧
    (0 <= conv_rate_1 rates ∧ conv_rate_1 rates <= 100) ∧
    (0 <= conv_rate_2 rates ∧ conv_rate_2 rates <= 100).
Proof.
  eexists. split; [reflexivity|].
  split; eapply (funnel_rates_ranges sample_df); reflexivity.
Defined.

(** ** Exploration page: what the filters select *)

Lemma filter_all {A} (P : A → Prop) `{∀ x, Decision (P x)} (l : list A) :
  Forall P l → filter P l = l.
Proof.
  induction 1 as [|x l Hx _ IH]; [reflexivity|].
  rewrite filter_cons, IH. case_decide; [reflexivity|contradiction].
Qed.

Lemma filter_table_filter (field : Row → string) (selected : string)
    (df : DataFrame) :
  filter_table field selected df = filter (matches field selected) df.
Proof.
  unfold filter_table, matches, select.
  destruct (decide (selected = "All")) as [E|E].
  - symmetry. apply filter_all. apply Forall_forall. intros r _. left. exact E.
  - apply list_filter_iff. intros r. rewrite bool_decide_eq_true.
    split; [intros Hr; right; exact Hr|intros [Hr|Hr]; [contradiction|exact Hr]].
Qed.

(** The table behind [filtered_df] is the loaded table with the rows that
    do not match one of the three selections left out (a selection of
    "All" matches every row): the other rows stay, each as often as it
    occurs and in the order of the loaded table; with "All" selected three
    times it is a copy of the whole table. *)
Theorem apply_filters_selects (σ : store) (df : ref) (t : DataFrame)
    (selected_city selected_segment selected_zone : string) :
  σ !! df = Some t →
  ∃ filtered_df σ',
    apply_filters df selected_city selected_segment selected_zone σ
      = Some (filtered_df, σ') ∧
    σ' !! filtered_df =
      Some (filter (λ r, matches (λ r, City (input r)) selected_city r ∧
                         matches (λ r, CustomerSegment (input r))
                                 selected_segment r ∧
                         matches (λ r, Zone (input r)) selected_zone r) t) ∧
    (selected_city = "All" → selected_segment = "All" →
     selected_zone = "All" → σ' !! filtered_df = Some t).
Proof.
  intros H.
  destruct (apply_filters_run σ df t selected_city selected_segment
              selected_zone H) as (l & σ' & E & _ & Hl & _).
  exists l, σ'. split; [exact E|]. split.
  - rewrite Hl. f_equal. rewrite !filter_table_filter.
    rewrite !list_filter_filter. apply list_filter_iff. intros r. tauto.
  - intros -> -> ->. exact Hl.
Qed.

Lemma apply_filters_selects_witness :
  ∃ filtered_df σ',
    apply_filters 1%positive "Pune" "All" "West" session
      = Some (filtered_df, σ') ∧
    σ' !! filtered_df =
      Some (filter (λ r, matches (λ r, City (input r)) "Pune" r ∧
                         matches (λ r, CustomerSegment (input r)) "All" r ∧
                         matches (λ r, Zone (input r)) "West" r) sample_df) ∧
    ("Pune" = "All" → "All" = "All" → "West" = "All" →
     σ' !! filtered_df = Some sample_df).
Proof.
  apply (apply_filters_selects session 1%positive sample_df "Pune" "All" "West").
  reflexivity.
Defined.

Example sample_filter_keeps_duplicates :
  filter_table (λ r, CustomerSegment (input r)) "Premium" sample_df
  = [add_computed_columns cac_map premium_customer;
     add_computed_columns cac_map premium_customer].
Proof. reflexivity. Qed.

(** ** ROI page: how recomputations compose *)

Lemma recompute_map (d : gmap string Z) (df : DataFrame) :
  recompute d df =
  map (λ r, {| input := input r; CLV := CLV r; ReturnRate := ReturnRate r;
               CAC := map_dict d (CustomerSegment (input r));
               ROI := num_sub (CLV r) (map_dict d (CustomerSegment (input r)));
               ROI_Ratio :=
                 Some (num_div (CLV r)
                         (map_dict d (CustomerSegment (input r)))) |}) df.
Proof.
  unfold recompute, assign_ROI_Ratio, assign_ROI, assign_CAC.
  rewrite !map_map. reflexivity.
Qed.

Lemma cac_map_custom_default : cac_map_custom 500 300 200 150 = cac_map.
Proof. reflexivity. Qed.

(** The recomputed table depends on the mapping it is recomputed under and
    on nothing an earlier mapping has left: recomputing twice is
    recomputing once under the second mapping, and the mapping used at
    load time does not show in the result.  Under the default values of
    the four inputs the recomputed CAC and ROI columns are those of the
    loaded table. *)
Theorem recompute_overrides (d d' : gmap string Z) (df : DataFrame)
    (records : list CustomerRecord) :
  recompute d (recompute d' df) = recompute d df ∧
  recompute d (deriveMetrics records d') = recompute d (deriveMetrics records d) ∧
  map CAC (recompute (cac_map_custom 500 300 200 150)
             (deriveMetrics records cac_map))
    = map CAC (deriveMetrics records cac_map) ∧
  map ROI (recompute (cac_map_custom 500 300 200 150)
             (deriveMetrics records cac_map))
    = map ROI (deriveMetrics records cac_map).
Proof.
  split; [|split; [|split]].
  - rewrite (recompute_map d (recompute d' df)), (recompute_map d' df),
      (recompute_map d df), map_map. reflexivity.
  - rewrite !recompute_map. unfold deriveMetrics. rewrite !map_map. reflexivity.
  - rewrite cac_map_custom_default, recompute_map. unfold deriveMetrics.
    rewrite !map_map. reflexivity.
  - rewrite cac_map_custom_default, recompute_map. unfold deriveMetrics.
    rewrite !map_map. reflexivity.
Qed.

(** A custom CAC of 0 raises nothing on the ROI page: the row's ROI is its
    CLV, and its ROI_Ratio is +inf for a positive CLV, -inf for a negative
    one and NaN for a CLV of 0. *)
Theorem zero_cac_ratio (d : gmap string Z) (df : DataFrame) (i : nat)
    (r : Row) (clv : Q) :
  df !! i = Some r →
  d !! CustomerSegment (input r) = Some 0%Z →
  CLV r = Fin clv →
  ∃ r', recompute d df !! i = Some r' ∧
    CAC r' = Fin 0 ∧
    ROI r' =n= Fin clv ∧
    (0 < clv → ROI_Ratio r' = Some PInf) ∧
    (clv < 0 → ROI_Ratio r' = Some NInf) ∧
    (clv == 0 → ROI_Ratio r' = Some NaN).
Proof.
  intros Hi Hd Hc. eexists. split; [apply recompute_lookup; exact Hi|].
  cbn [CAC ROI ROI_Ratio]. unfold map_dict. rewrite Hd, Hc.
  split; [reflexivity|]. split; [simpl; unfold of_Z; simpl; ring|].
  simpl. unfold Qsgn.
  destruct clv as [n dn]. unfold Qlt, Qeq. simpl.
  repeat split; intros H; f_equal;
    destruct n; simpl in *; try reflexivity; lia.
Qed.

Lemma zero_cac_ratio_witness :
  ∃ r', recompute (cac_map_custom 0 300 200 150) sample_df !! 0%nat = Some r' ∧
    CAC r' = Fin 0 ∧
    ROI r' =n= Fin ((9005 # 10) * 3) ∧
    (0 < (9005 # 10) * 3 → ROI_Ratio r' = Some PInf) ∧
    ((9005 # 10) * 3 < 0 → ROI_Ratio r' = Some NInf) ∧
    ((9005 # 10) * 3 == 0 → ROI_Ratio r' = Some NaN).
Proof.
  apply (zero_cac_ratio (cac_map_custom 0 300 200 150) sample_df 0
           (add_computed_columns cac_map premium_customer)); reflexivity.
Defined.

(** ** Simulated Impact page *)

Lemma named_scenarios_improving : Forall improving (map snd scenarios_items).
Proof. repeat constructor; discriminate. Qed.

(** For averages that are finite and not negative and a scenario that
    improves (each of the three named ones does), the projected CAC is
    between 0 and the current CAC, the projected frequency and order value
    are at least the current ones, the projected CLV is at least the
    product of the current average order value and frequency, and the
    projected satisfaction is at most 5 and, for a current satisfaction of
    at most 5, not below it. *)
Theorem projection_improves (cac clv roi frequency aov satisfaction : Q)
    (s : Scenario) :
  improving s →
  0 <= cac → 0 <= frequency → 0 <= aov → 0 <= satisfaction →
  let p := project (finite_metrics cac clv roi frequency aov satisfaction) s in
  ∃ p_cac p_frequency p_aov p_clv p_satisfaction,
    projected_cac p = Fin p_cac ∧ 0 <= p_cac ∧ p_cac <= cac ∧
    projected_frequency p = Fin p_frequency ∧ frequency <= p_frequency ∧
    projected_aov p = Fin p_aov ∧ aov <= p_aov ∧
    projected_clv p = Fin p_clv ∧ aov * frequency <= p_clv ∧
    projected_satisfaction p = Fin p_satisfaction ∧ p_satisfaction <= 5 ∧
    (satisfaction <= 5 → satisfaction <= p_satisfaction) ∧
    Forall improving (map snd scenarios_items).
Proof.
  intros (R0 & R1 & F0 & A0) Hc Hf Ha Hs p. subst p.
  unfold project, finite_metrics, py_min. cbn.
  exists (cac * (1 - cac_reduction s)), (frequency * (1 + frequency_increase s)),
    (aov * (1 + aov_increase s)),
    (aov * (1 + aov_increase s) * (frequency * (1 + frequency_increase s))),
    (if Qle_bool (satisfaction * (11 # 10)) 5
     then satisfaction * (11 # 10) else 5).
  split; [reflexivity|]. split; [nra|]. split; [nra|].
  split; [reflexivity|]. split; [nra|].
  split; [reflexivity|]. split; [nra|].
  split; [reflexivity|].
  split.
  { assert (aov <= aov * (1 + aov_increase s)) by nra.
    assert (frequency <= frequency * (1 + frequency_increase s)) by nra.
    nra. }
  destruct (Qle_bool (satisfaction * (11 # 10)) 5) eqn:E; cbn.
  - apply Qle_bool_iff in E.
    split; [reflexivity|]. split; [exact E|].
    split; [intros _; lra|apply named_scenarios_improving].
  - split; [reflexivity|]. split; [lra|].
    split; [intros H; exact H|apply named_scenarios_improving].
Qed.

Lemma projection_improves_witness :
  let p := project (finite_metrics 300 1500 1200 (32 # 10) 450 (42 # 10))
             Base_Case in
  ∃ p_cac p_frequency p_aov p_clv p_satisfaction,
    projected_cac p = Fin p_cac ∧ 0 <= p_cac ∧ p_cac <= 300 ∧
    projected_frequency p = Fin p_frequency ∧ (32 # 10) <= p_frequency ∧
    projected_aov p = Fin p_aov ∧ 450 <= p_aov ∧
    projected_clv p = Fin p_clv ∧ 450 * (32 # 10) <= p_clv ∧
    projected_satisfaction p = Fin p_satisfaction ∧ p_satisfaction <= 5 ∧
    ((42 # 10) <= 5 → (42 # 10) <= p_satisfaction) ∧
    Forall improving (map snd scenarios_items).
Proof.
  apply (projection_improves 300 1500 1200 (32 # 10) 450 (42 # 10) Base_Case).
  - repeat split; discriminate.
  - discriminate.
  - discriminate.
  - discriminate.
  - discriminate.
Defined.

(** The cap at 5.0 holds for every average satisfaction that is a number,
    infinite ones included; an average that is NaN (a table with no
    satisfaction score) stays NaN and is not turned into 5. *)
Theorem satisfaction_cap (cur : CurrentMetrics) (s : Scenario) :
  (current_satisfaction cur ≠ NaN →
   num_le (projected_satisfaction (project cur s)) (Fin 5) = true) ∧
  (current_satisfaction cur = NaN →
   projected_satisfaction (project cur s) = NaN).
Proof.
  unfold project. cbn [projected_satisfaction]. unfold py_min.
  destruct (current_satisfaction cur) as [q| | |]; cbn.
  - split; [intros _|discriminate].
    destruct (Qle_bool (q * (11 # 10)) 5) eqn:E; cbn; [exact E|reflexivity].
  - split; [reflexivity|discriminate].
  - split; [reflexivity|discriminate].
  - split; [contradiction|reflexivity].
Qed.

Lemma satisfaction_cap_witness :
  num_le (projected_satisfaction
            (project (finite_metrics 300 1500 1200 (32 # 10) 450 (49 # 10))
                     Base_Case)) (Fin 5) = true.
Proof.
  apply (satisfaction_cap
           (finite_metrics 300 1500 1200 (32 # 10) 450 (49 # 10)) Base_Case).
  discriminate.
Defined.

Lemma Qeq_bool_false (q : Q) : ¬ q == 0 → Qeq_bool q 0 = false.
Proof.
  intros H. destruct (Qeq_bool q 0) eqn:E; [|reflexivity].
  apply Qeq_bool_iff in E. contradiction.
Qed.

(** The payback period of the summary does go down: for a current average
    CAC that is not negative, a positive average order value and a
    scenario that improves, the projected CAC over the projected order
    value is at most the current CAC over the current order value. *)
Theorem payback_goes_down (cac clv roi frequency aov satisfaction : Q)
    (s : Scenario) :
  improving s → 0 <= cac → 0 < aov →
  let cur := finite_metrics cac clv roi frequency aov satisfaction in
  ∃ before after,
    payback_current cur = Fin before ∧
    payback_projected (project cur s) = Fin after ∧
    0 <= after ∧ after <= before.
Proof.
  intros (R0 & R1 & F0 & A0) Hc Ha cur. subst cur.
  unfold payback_current, payback_projected, project, finite_metrics. cbn.
  assert (Hp : 0 < aov * (1 + aov_increase s)) by nra.
  rewrite (Qeq_bool_false aov) by lra.
  rewrite (Qeq_bool_false (aov * (1 + aov_increase s))) by lra.
  eexists _, _. split; [reflexivity|]. split; [reflexivity|].
  split.
  - apply Qle_shift_div_l; [exact Hp|]. nra.
  - apply Qle_shift_div_r; [exact Hp|].
    assert (E : cac / aov * (aov * (1 + aov_increase s))
                == cac * (1 + aov_increase s)) by (field; lra).
    rewrite E. nra.
Qed.

Lemma payback_goes_down_witness :
  let cur := finite_metrics 300 1500 1200 (32 # 10) 450 (42 # 10) in
  ∃ before after,
    payback_current cur = Fin before ∧
    payback_projected (project cur Conservative) = Fin after ∧
    0 <= after ∧ after <= before.
Proof.
  apply (payback_goes_down 300 1500 1200 (32 # 10) 450 (42 # 10) Conservative).
  - repeat split; discriminate.
  - discriminate.
  - reflexivity.
Defined.

Lemma scenarios_items_data : scenarios_data = list_to_map scenarios_items.
Proof. reflexivity. Qed.

(** The comparison table has one row for each of the three scenarios, in
    the order Conservative, Base Case, Optimistic, and in the row of the
    scenario chosen above it the cells CAC, CLV, ROI and Order Freq format
    the projected CAC, CLV, ROI and frequency that the page has computed
    for that scenario, and the cell CLV/CAC their quotient. *)
Theorem comparison_agrees (df : DataFrame) (scenario : string)
    (p : ProjectedMetrics) :
  simulated_impact df scenario = Some p →
  map row_Scenario (comparison_data (current_metrics df))
    = ["Conservative"; "Base Case"; "Optimistic"] ∧
  ∃ row, row ∈ comparison_data (current_metrics df) ∧
    row_Scenario row = scenario ∧
    row_CAC row = rupees (projected_cac p) ∧
    row_CLV row = rupees (projected_clv p) ∧
    row_ROI row = rupees (projected_roi p) ∧
    formatted_value (row_Order_Freq row) = projected_frequency p ∧
    formatted_value (row_CLV_per_CAC row)
      = num_div (projected_clv p) (projected_cac p).
Proof.
  intros H. split; [reflexivity|].
  unfold simulated_impact in H.
  destruct (scenarios_data !! scenario) as [s|] eqn:E; [|discriminate H].
  cbn in H. injection H as <-.
  exists (comparison_row (current_metrics df) (scenario, s)).
  split; [|repeat split].
  rewrite scenarios_items_data in E.
  apply elem_of_list_to_map_2 in E.
  unfold comparison_data.
  apply list_elem_of_In, in_map, list_elem_of_In. exact E.
Qed.

Lemma comparison_agrees_witness :
  ∃ p, simulated_impact sample_df "Base Case" = Some p ∧
  ∃ row, row ∈ comparison_data (current_metrics sample_df) ∧
    row_Scenario row = "Base Case" ∧
    row_CAC row = rupees (projected_cac p) ∧
    row_CLV row = rupees (projected_clv p) ∧
    row_ROI row = rupees (projected_roi p) ∧
    formatted_value (row_Order_Freq row) = projected_frequency p ∧
    formatted_value (row_CLV_per_CAC row)
      = num_div (projected_clv p) (projected_cac p).
Proof.
  eexists. split; [reflexivity|].
  eapply (comparison_agrees sample_df "Base Case"). reflexivity.
Defined.





(** ** Executive Summary page *)



(** ** An empty table *)

(** On a table without rows every average is NaN; so is every projected
    metric under every scenario, the projected satisfaction included, the
    summary shows a ratio of NaN with the label "Needs Improvement", the
    funnel page raises ZeroDivisionError and the funnel by segment and the
    aggregation by segment have no row. *)
Theorem empty_table (s : Scenario) :
  current_metrics [] =
    {| current_cac := NaN; current_clv := NaN; current_roi := NaN;
       current_frequency := NaN; current_aov := NaN;
       current_satisfaction := NaN |} ∧
  project (current_metrics []) s =
    {| projected_cac := NaN; projected_frequency := NaN;
       projected_aov := NaN; projected_clv := NaN; projected_roi := NaN;
       projected_satisfaction := NaN |} ∧
  clv_cac_ratio (key_metrics []) = NaN ∧
  health (key_metrics []) = "Needs Improvement" ∧
  funnel_rates (classifyFunnel []) = inl ZeroDivisionError ∧
  segment_funnel [] = [] ∧
  groupby segment [] = [].
Proof. repeat split. Qed.

(** ** A session of interactions *)

Lemma interact_run (σ : store) (df : ref) (t : DataFrame) (a : interaction) :
  σ !! df = Some t →
  ∃ l σ', interact df a σ = Some (l, σ') ∧ σ !! l = None ∧
          is_Some (σ' !! l) ∧ preserves σ σ'.
Proof.
  intros H. destruct a as [city seg zone|p r b o]; cbn [interact].
  - destruct (apply_filters_run σ df t city seg zone H)
      as (l & σ' & E & N & Hl & P).
    exists l, σ'. repeat split; eauto.
  - rewrite (recalculate_custom_run _ _ _ _ _ _ _ H).
    eexists _, _. split; [reflexivity|]. split; [apply fresh_None|].
    split; [eexists; apply lookup_insert_eq|apply preserves_alloc].
Qed.

(** Through any sequence of filter selections and CAC recomputations the
    loaded table keeps its rows, as does every table object made on the
    way, and each interaction adds at least one new object. *)
Theorem session_keeps_loaded (acts : list interaction) (σ : store) (df : ref)
    (t : DataFrame) :
  σ !! df = Some t →
  ∃ σ', session_run df acts σ = Some (tt, σ') ∧
    σ' !! df = Some t ∧ preserves σ σ' ∧
    length acts + base.size (dom σ) ≤ base.size (dom σ').
Proof.
  revert σ. induction acts as [|a acts IH]; intros σ H.
  - exists σ. repeat split; [exact H|reflexivity|cbn; lia].
  - destruct (interact_run σ df t a H) as (l & σ1 & E & N & [t1 S1] & P).
    destruct (IH σ1 (P _ _ H)) as (σ' & E' & H' & P' & Hsz).
    exists σ'. cbn [session_run]. unfold mbind'. rewrite E.
    split; [exact E'|]. split; [exact H'|].
    split; [etransitivity; eauto|].
    assert (base.size (dom σ) < base.size (dom σ1))%nat.
    { apply subset_size. apply strict_spec_alt. split.
      - intros x Hx. apply elem_of_dom in Hx as [v Hv].
        apply elem_of_dom. exists v. apply P. exact Hv.
      - intros Heq. apply not_elem_of_dom in N. apply N.
        rewrite Heq. apply elem_of_dom. eexists; exact S1. }
    cbn [length]. lia.
Qed.

Lemma session_keeps_loaded_witness :
  ∃ σ', session_run 1%positive
          [Explore "Pune" "All" "West"; Recalculate 450 300 250 100;
           Explore "All" "Premium" "All"] session = Some (tt, σ') ∧
    σ' !! 1%positive = Some sample_df ∧ preserves session σ' ∧
    length [Explore "Pune" "All" "West"; Recalculate 450 300 250 100;
            Explore "All" "Premium" "All"] + base.size (dom session)
    ≤ base.size (dom σ').
Proof.
  apply (session_keeps_loaded _ session 1%positive sample_df). reflexivity.
Defined.

(** * Properties of the machine arithmetic *)

(** ** Scenario projection in binary64 *)



(** ** Metric derivation in the arithmetic of the columns *)


Lemma lookup_zip_with_Some {A B C} (f : A → B → C) (l : list A) (k : list B)
    (i : nat) (a : A) (b : B) :
  l !! i = Some a → k !! i = Some b → zip_with f l k !! i = Some (f a b).
Proof. intros Ha Hb. rewrite lookup_zip_with, Ha, Hb. reflexivity. Qed.





(** ** Division by a zero frequency, and describe() *)

Lemma div_zero (x : spec_float) (s : bool) :
  SF64div x (S754_zero s) =
  match x with
  | S754_nan | S754_zero _ => S754_nan
  | S754_infinity sx | S754_finite sx _ _ => S754_infinity (xorb sx s)
  end.
Proof. destruct x; reflexivity. Qed.

Lemma add_not_finite (a b : spec_float) :
  Machine.is_finite a = false ∨ Machine.is_finite b = false →
  Machine.is_finite (SF64add a b) = false.
Proof.
  destruct a as [sa|sa| |sa ma ea], b as [sb|sb| |sb mb eb];
    intros [H|H]; try discriminate H; try reflexivity;
    destruct sa, sb; reflexivity.
Qed.

Lemma div_not_finite (a b : spec_float) :
  Machine.is_finite a = false → Machine.is_finite (SF64div a b) = false.
Proof.
  destruct a as [sa|sa| |sa ma ea], b as [sb|sb| |sb mb eb];
    intros H; try discriminate H; reflexivity.
Qed.

Lemma sums_not_finite (l : list spec_float) (t : spec_float) :
  Machine.sums l t →
  Exists (λ c, Machine.is_finite c = false) l →
  Machine.is_finite t = false.
Proof.
  induction 1 as [|x|l l1 l2 a b Hp _ IH1 _ IH2]; intros Hex.
  - apply Exists_nil in Hex. contradiction.
  - apply Exists_cons in Hex as [Hex|Hex]; [exact Hex|].
    apply Exists_nil in Hex. contradiction.
  - rewrite Hp in Hex. apply Exists_app in Hex as [Hex|Hex].
    + apply add_not_finite. left. apply IH1. exact Hex.
    + apply add_not_finite. right. apply IH2. exact Hex.
Qed.

Lemma sums_sum_left (l : list spec_float) : Machine.sums l (Machine.sum_left l).
Proof.
  destruct l as [|x l]; [constructor|]. cbn [Machine.sum_left].
  assert (H : ∀ acc pre, Machine.sums pre acc →
                Machine.sums (pre ++ l) (fold_left SF64add l acc)).
  { induction l as [|y l IH]; intros acc pre Hacc.
    - rewrite app_nil_r. exact Hacc.
    - cbn [fold_left].
      replace (pre ++ y :: l) with ((pre ++ [y]) ++ l)
        by (rewrite <- app_assoc; reflexivity).
      apply IH. eapply Machine.sums_split; [reflexivity|exact Hacc|constructor]. }
  apply (H x [x]). constructor.
Qed.

Lemma describe_count_length (cells : list spec_float) :
  Machine.describe_count cells
  = (Z.of_nat (length cells)
     - Z.of_nat (length (filter (λ x, Machine.is_nan x = true) cells)))%Z.
Proof.
  unfold Machine.describe_count.
  induction cells as [|x cells IH]; [reflexivity|].
  rewrite !filter_cons.
  destruct (Machine.is_nan x); repeat case_decide; try done;
    cbn [length]; lia.
Qed.

(** C3, amended.  For a record whose order frequency is a zero, the return
    rate is NaN exactly when the returned orders are 0 or NaN; otherwise
    it is an infinity with the sign of the returned orders (the opposite
    sign for a frequency of -0.0).  describe(), the aggregate that covers
    the ReturnRate column, counts N - k cells when k of the N cells are
    NaN and adds 0 in place of a NaN cell, so that NaN never enters the
    sum; an infinite cell is counted like any other and leaves the mean
    infinite or NaN, in whatever order the cells are added. *)
Theorem zero_frequency_binary64 (df : Machine.RawFrame) (d : gmap string Z)
    (i : nat) (returned : spec_float) (zero_sign : bool) :
  Machine.to_floats (Machine.ReturnedOrders df) !! i = Some returned →
  Machine.to_floats (Machine.OrderFrequency df) !! i
    = Some (S754_zero zero_sign) →
  (∃ cells rate,
     Machine.ReturnRate (Machine.deriveMetrics df d) = Machine.Float64 cells ∧
     cells !! i = Some rate ∧
     rate = match returned with
            | S754_nan | S754_zero _ => S754_nan
            | S754_infinity sx | S754_finite sx _ _ =>
                S754_infinity (xorb sx zero_sign)
            end ∧
     (Machine.is_nan rate = true ↔
      Machine.is_nan returned || Machine.is_zero returned = true)) ∧
  (∀ cells : list spec_float,
     Machine.describe_count cells
     = (Z.of_nat (length cells)
        - Z.of_nat (length (filter (λ x, Machine.is_nan x = true) cells)))%Z ∧
     Forall (λ x, Machine.is_nan x = false) (map Machine.fill0 cells) ∧
     Machine.is_mean cells (Machine.describe_mean cells) ∧
     (∀ m, Machine.is_mean cells m → Machine.describe_count cells ≠ 0%Z →
        ∃ total, Machine.sums (map Machine.fill0 cells) total ∧
          m = SF64div total
                (Machine.of_int
                   (Z.of_nat (length cells)
                    - Z.of_nat (length (filter (λ x, Machine.is_nan x = true)
                                               cells))))) ∧
     (Exists (λ x, Machine.is_inf x = true) cells →
      ∀ m, Machine.is_mean cells m → Machine.is_finite m = false)).
Proof.
  intros Hr Hf. split.
  - unfold Machine.deriveMetrics. cbn [Machine.ReturnRate].
    unfold Machine.col_div. eexists _, _. split; [reflexivity|].
    split; [apply (lookup_zip_with_Some _ _ _ _ _ _ Hr Hf)|].
    rewrite div_zero. split; [reflexivity|].
    destruct returned; cbn; split; intros H; try reflexivity; discriminate H.
  - intros cells. split; [apply describe_count_length|].
    split; [|split].
    + apply Forall_forall. intros x Hx.
      apply list_elem_of_In, in_map_iff in Hx as (y & <- & _).
      unfold Machine.fill0. destruct y; reflexivity.
    + exists (Machine.sum_left (map Machine.fill0 cells)).
      split; [apply sums_sum_left|reflexivity].
    + split.
      { intros m (total & Hsum & ->) Hn. exists total. split; [exact Hsum|].
        unfold Machine.mean_of.
        destruct (Z.eqb_spec (Machine.describe_count cells) 0) as [E|_];
          [contradiction|].
        rewrite describe_count_length. reflexivity. }
      intros Hex m (total & Hsum & ->).
      unfold Machine.mean_of. destruct (Z.eqb _ _); [reflexivity|].
      apply div_not_finite. eapply sums_not_finite; [exact Hsum|].
      apply Exists_exists in Hex as (x & Hx & Hinf).
      apply Exists_exists. exists x. split.
      * apply list_elem_of_In, in_map_iff. exists x.
        split; [|apply list_elem_of_In; exact Hx].
        unfold Machine.fill0. destruct x; try discriminate Hinf; reflexivity.
      * destruct x; try discriminate Hinf; reflexivity.
Qed.

Lemma zero_frequency_binary64_witness :
  (∃ cells rate,
     Machine.ReturnRate
       (Machine.deriveMetrics (zero_frequency_frame 1) Machine.cac_map)
       = Machine.Float64 cells ∧
     cells !! 0%nat = Some rate ∧
     rate = S754_infinity false ∧
     (Machine.is_nan rate = true ↔ false = true)) ∧
  Machine.describe_mean
    [S754_infinity false; Machine.lit 0.5; S754_nan] = S754_infinity false ∧
  Machine.describe_count
    [S754_infinity false; Machine.lit 0.5; S754_nan] = 2%Z.
Proof.
  split; [|split; vm_compute; reflexivity].
  apply (zero_frequency_binary64 (zero_frequency_frame 1) Machine.cac_map 0
           (Machine.of_int 1) false); vm_compute; reflexivity.
Defined.

(** ** The customer counts of the aggregation by segment *)

Lemma machine_group_keys_NoDup (keys : list (option string)) :
  NoDup (Machine.group_keys keys).
Proof.
  unfold Machine.group_keys. rewrite merge_sort_Permutation.
  apply NoDup_remove_dups.
Qed.

Lemma elem_of_machine_group_keys (keys : list (option string)) (k : string) :
  k ∈ Machine.group_keys keys ↔ Some k ∈ keys.
Proof.
  unfold Machine.group_keys.
  rewrite merge_sort_Permutation, elem_of_remove_dups, list_elem_of_omap.
  split.
  - intros (x & Hx & E). cbn in E. subst x. exact Hx.
  - intros H. exists (Some k). split; [exact H|reflexivity].
Qed.

Lemma group_count_nil (ks : list string) : group_count [] ks = 0%Z.
Proof.
  unfold group_count, Machine.total_count.
  induction ks as [|k ks IH]; cbn [map foldr]; [reflexivity|].
  rewrite IH. reflexivity.
Qed.

Lemma group_count_skip (row : option string * option string)
    (rows : list (option string * option string)) (ks : list string) :
  (∀ k, k ∈ ks → Machine.counted k row = false) →
  group_count (row :: rows) ks = group_count rows ks.
Proof.
  unfold group_count, Machine.total_count.
  induction ks as [|k ks IH]; intros H; cbn [map foldr]; [reflexivity|].
  rewrite IH by (intros k' Hk'; apply H; right; exact Hk').
  rewrite filter_cons. rewrite (H k) by left.
  case_decide; [discriminate|reflexivity].
Qed.

Lemma counted_key (k : string) (row : option string * option string) :
  Machine.counted k row = true ↔ row.1 = Some k ∧ is_Some row.2.
Proof.
  unfold Machine.counted.
  rewrite andb_true_iff, !bool_decide_eq_true. reflexivity.
Qed.

Lemma group_count_hit (row : option string * option string)
    (rows : list (option string * option string)) (ks : list string)
    (k : string) :
  NoDup ks → k ∈ ks → row.1 = Some k → is_Some row.2 →
  group_count (row :: rows) ks = (1 + group_count rows ks)%Z.
Proof.
  intros Hnd Hin Hk Hid. revert Hnd Hin.
  induction ks as [|k' ks IH]; intros Hnd Hin.
  - apply elem_of_nil in Hin. contradiction.
  - apply NoDup_cons in Hnd as [Hnot Hnd].
    destruct (decide (k' = k)) as [->|Hne].
    + change (group_count (row :: rows) (k :: ks))
        with (Z.of_nat (length (filter (λ r, Machine.counted k r = true)
                                       (row :: rows)))
              + group_count (row :: rows) ks)%Z.
      change (group_count rows (k :: ks))
        with (Z.of_nat (length (filter (λ r, Machine.counted k r = true) rows))
              + group_count rows ks)%Z.
      rewrite group_count_skip.
      * rewrite filter_cons. case_decide as E; [cbn [length]; lia|].
        exfalso. apply E. apply counted_key. split; assumption.
      * intros k2 Hk2. destruct (Machine.counted k2 row) eqn:E; [|reflexivity].
        apply counted_key in E as [E _]. rewrite Hk in E.
        injection E as ->. contradiction.
    + apply elem_of_cons in Hin as [->|Hin]; [contradiction|].
      change (group_count (row :: rows) (k' :: ks))
        with (Z.of_nat (length (filter (λ r, Machine.counted k' r = true)
                                       (row :: rows)))
              + group_count (row :: rows) ks)%Z.
      change (group_count rows (k' :: ks))
        with (Z.of_nat (length (filter (λ r, Machine.counted k' r = true) rows))
              + group_count rows ks)%Z.
      rewrite (IH Hnd Hin). rewrite filter_cons.
      case_decide as E; [|lia].
      apply counted_key in E as [E _]. rewrite Hk in E.
      injection E as ->. contradiction.
Qed.

Lemma group_count_total (rows : list (option string * option string))
    (ks : list string) :
  NoDup ks →
  (∀ row k, row ∈ rows → row.1 = Some k → k ∈ ks) →
  group_count rows ks = Z.of_nat (length (filter complete_row rows)).
Proof.
  intros Hnd. induction rows as [|row rows IH]; intros Hcov.
  - apply group_count_nil.
  - assert (IH' := IH (λ r k Hr, Hcov r k (list_elem_of_further _ _ _ Hr))).
    rewrite filter_cons. destruct (decide (complete_row row)) as [[Hk Hid]|Hn].
    + destruct Hk as [k Hk].
      rewrite (group_count_hit row rows ks k Hnd); [cbn [length]; lia| | |].
      * apply (Hcov row k); [left|exact Hk].
      * exact Hk.
      * exact Hid.
    + rewrite group_count_skip; [exact IH'|].
      intros k _. destruct (Machine.counted k row) eqn:E; [|reflexivity].
      exfalso. apply Hn. apply counted_key in E as [E1 E2].
      split; [rewrite E1; eexists; reflexivity|exact E2].
Qed.

Lemma elem_of_zip_fst {A B} (l : list A) (k : list B) (x : A * B) :
  x ∈ zip l k → x.1 ∈ l.
Proof.
  revert k. induction l as [|a l IH]; intros [|b k] H; cbn in H;
    try (apply elem_of_nil in H; contradiction).
  apply elem_of_cons in H as [->|H]; [left|right; eapply IH; exact H].
Qed.

Lemma customer_count_general (keys ids : list (option string)) :
  Machine.total_count (Machine.customer_count keys ids)
  = Z.of_nat (length (filter complete_row (zip keys ids))).
Proof.
  unfold Machine.customer_count.
  apply (group_count_total (zip keys ids) (Machine.group_keys keys)).
  - apply machine_group_keys_NoDup.
  - intros row k Hrow Hk. apply elem_of_machine_group_keys.
    rewrite <- Hk. eapply elem_of_zip_fst. exact Hrow.
Qed.

Lemma Forall_zip_complete (keys ids : list (option string)) :
  Forall is_Some keys → Forall is_Some ids →
  Forall complete_row (zip keys ids).
Proof.
  intros Hk. revert ids. induction Hk as [|k keys Hk _ IH]; intros ids Hi.
  - constructor.
  - destruct Hi as [|x ids Hx Hi]; [constructor|].
    cbn [zip zip_with]. constructor; [split; assumption|apply IH; exact Hi].
Qed.

(** Two Premium customers, the second without a CustomerID: every segment
    is a key of the mapping, the table has 2 rows, and the counts sum
    to 1. *)
Lemma count_skips_missing_id :
  let df := two_premium None in
  Forall (λ cell, is_Some (Machine.lookup_cell Machine.cac_map cell))
         (Machine.CustomerSegment df) ∧
  Machine.nrows df = 2%nat ∧
  Machine.customer_count (Machine.CustomerSegment df) (Machine.CustomerID df)
    = [("Premium", 1%Z)] ∧
  Machine.total_count
    (Machine.customer_count (Machine.CustomerSegment df) (Machine.CustomerID df))
    ≠ Z.of_nat (Machine.nrows df).
Proof.
  cbv zeta. split; [|split; [reflexivity|split; [vm_compute; reflexivity|]]].
  - repeat constructor; eexists; reflexivity.
  - vm_compute. discriminate.
Qed.

(** C8, amended.  When every record's segment is a key of the CAC mapping
    and no CustomerID is missing, the customer counts of the aggregation
    by segment sum to the number of rows: the group keys are distinct and
    a row is counted under its own segment only.  Whatever the table, the
    counts sum to the number of rows in which neither the segment nor the
    CustomerID is missing. *)
Theorem customer_counts_sum (df : Machine.RawFrame) (d : gmap string Z) :
  length (Machine.CustomerSegment df) = length (Machine.CustomerID df) →
  Forall (λ cell, is_Some (Machine.lookup_cell d cell))
         (Machine.CustomerSegment df) →
  Forall is_Some (Machine.CustomerID df) →
  let groups :=
    Machine.customer_count (Machine.CustomerSegment df) (Machine.CustomerID df) in
  Machine.total_count groups = Z.of_nat (Machine.nrows df) ∧
  NoDup (map fst groups) ∧
  (∀ k1 k2 row, Machine.counted k1 row = true →
                Machine.counted k2 row = true → k1 = k2) ∧
  (∀ df' : Machine.RawFrame,
     Machine.total_count
       (Machine.customer_count (Machine.CustomerSegment df')
                               (Machine.CustomerID df'))
     = Z.of_nat (length (filter complete_row
                           (zip (Machine.CustomerSegment df')
                                (Machine.CustomerID df'))))).
Proof.
  intros Hlen Hseg Hid groups. subst groups.
  split; [|split; [|split]].
  - rewrite customer_count_general. f_equal.
    rewrite filter_all.
    + unfold Machine.nrows. rewrite length_zip, Hlen. apply Nat.min_id.
    + apply Forall_zip_complete; [|exact Hid].
      eapply Forall_impl; [exact Hseg|].
      intros [k|] [c Hc]; [eexists; reflexivity|discriminate Hc].
  - unfold Machine.customer_count. rewrite map_map. cbn [fst].
    rewrite map_id. apply machine_group_keys_NoDup.
  - intros k1 k2 row H1 H2.
    apply counted_key in H1 as [H1 _], H2 as [H2 _]. congruence.
  - intros df'. apply customer_count_general.
Qed.

Lemma customer_counts_sum_witness :
  let df := two_premium (Some "C002") in
  let groups :=
    Machine.customer_count (Machine.CustomerSegment df) (Machine.CustomerID df) in
  Machine.total_count groups = Z.of_nat (Machine.nrows df) ∧
  NoDup (map fst groups).
Proof.
  cbv zeta. split;
    eapply (customer_counts_sum (two_premium (Some "C002")) Machine.cac_map);
    try reflexivity; repeat constructor; eexists; reflexivity.
Defined.

(** ** The funnel by segment over a text column *)






(** With an integer segment column the group keys can be positions of the
    new index, and then the assignment does align. *)
Example segment_funnel_int_keys :
  let sf := Machine.segment_funnel (Machine.IntKeys [0; 1; 1; 0]%Z)
              [Some "C1"; Some "C2"; Some "C3"; Some "C4"]
              (Machine.Int64 [2; 3; 5; 1]%Z) in
  Machine.Segment sf = [Machine.LInt 0; Machine.LInt 1] ∧
  Machine.Total sf = [2; 2]%Z ∧
  Machine.Active sf = [2; 2]%Z ∧
  Machine.Engaged sf = Machine.Int64 [1; 1]%Z ∧
  Machine.Loyal sf
    = Machine.Float64 [S754_zero false; Machine.lit 1].
Proof. vm_compute. repeat split. Qed.

Example segment_funnel_text_keys :
  let sf := Machine.segment_funnel
              (Machine.TextKeys [Some "Regular"; Some "Premium";
                                 Some "Premium"; None])
              [Some "C1"; Some "C2"; None; Some "C4"]
              (Machine.Int64 [2; 3; 5; 1]%Z) in
  Machine.Segment sf = [Machine.LStr "Premium"; Machine.LStr "Regular"] ∧
  Machine.Total sf = [1; 1]%Z ∧
  Machine.Active sf = [2; 1]%Z ∧
  Machine.Engaged sf = Machine.Float64 [S754_zero false; S754_zero false] ∧
  Machine.Loyal sf = Machine.Float64 [S754_zero false; S754_zero false].
Proof. vm_compute. repeat split. Qed.
